(** * qstrader: the simulated execution handler

    A shallow embedding of [qstrader/execution_handler/execution_handler.py]
    and the properties of [IBSimulatedExecutionHandler.execute_order].

    [ExecutionHandler], the abstract base class, only declares
    [execute_order]; [IBSimulatedExecutionHandler] is its one implementation.

    The handler talks to three collaborators that live outside the file: the
    shared events queue, the price handler and the optional compliance
    recorder.  The queue is part of the modelled world; the other two are
    records of methods.  Every call made to a collaborator is logged, in
    order, so that "was this object touched, and when" is a statement about
    the log. *)

From Stdlib Require Import String Ascii ZArith NArith List Bool Lia.
From Stdlib Require Import DecimalString DecimalFacts DecimalPos DecimalN DecimalZ.
Import ListNotations.

Local Open Scope string_scope.
Local Open Scope Z_scope.

(** ** Python values, exceptions and results *)

(** The exceptions that can cross [execute_order].  [KeyError] is what a
    price handler raises for a ticker it has never seen, [InvalidOperation]
    is what [decimal.Decimal] raises on a malformed literal, and [PyError]
    stands for any other exception, by class name and message. *)
Inductive exn : Type :=
| KeyError (key : string)
| InvalidOperation (literal : string)
| PyError (class_name message : string).

(** The outcome of a Python call: a value, or a raised exception. *)
Inductive result (A : Type) : Type :=
| Ok (a : A)
| Raise (e : exn).
Arguments Ok {A} a.
Arguments Raise {A} e.

(** Python's [str(x)]: the [__str__] protocol.  The handler never inspects a
    price in any other way, so a price type is any type with a [str]. *)
Class PyStr (A : Type) : Type := str : A -> string.

(** [str] of a Python [int]. *)
#[export] Instance PyStr_int : PyStr Z :=
  fun z => NilZero.string_of_int (Z.to_int z).

(** [str] of a Python [str] is the string itself. *)
#[export] Instance PyStr_str : PyStr string := fun s => s.

(** ** [decimal.Decimal]

    A Python [Decimal] is a sign, a coefficient and an exponent (what
    [as_tuple] shows), or one of the special values.  The value of
    [Finite s c e] is (-1)^s * c * 10^e, held exactly. *)
Inductive decimal : Type :=
| Finite (sign : bool) (coeff : N) (exp : Z)
| Infinity (sign : bool)
| NaN (sign : bool) (signaling : bool) (payload : N).

Definition is_digit (c : ascii) : bool :=
  let n := N_of_ascii c in ((48 <=? n) && (n <=? 57))%N.

(** ASCII white space, as [str.strip] removes it. *)
Definition is_space (c : ascii) : bool :=
  let n := N_of_ascii c in
  (((9 <=? n) && (n <=? 13)) || ((28 <=? n) && (n <=? 32)))%N.

Definition lower (c : ascii) : ascii :=
  let n := N_of_ascii c in
  if ((65 <=? n) && (n <=? 90))%N then ascii_of_N (n + 32) else c.

Fixpoint lowercase (s : string) : string :=
  match s with
  | EmptyString => EmptyString
  | String c r => String (lower c) (lowercase r)
  end.

Fixpoint lstrip (s : string) : string :=
  match s with
  | String c r => if is_space c then lstrip r else s
  | EmptyString => EmptyString
  end.

Fixpoint rstrip (s : string) : string :=
  match s with
  | String c r =>
      let r' := rstrip r in
      if is_space c && (r' =? "")%string then EmptyString else String c r'
  | EmptyString => EmptyString
  end.

Definition strip (s : string) : string := rstrip (lstrip s).

Fixpoint remove_underscores (s : string) : string :=
  match s with
  | String c r =>
      if (c =? "_")%char then remove_underscores r
      else String c (remove_underscores r)
  | EmptyString => EmptyString
  end.

(** The longest prefix of digits, and what follows it. *)
Fixpoint span_digits (s : string) : string * string :=
  match s with
  | String c r =>
      if is_digit c then
        let (d, t) := span_digits r in (String c d, t)
      else (EmptyString, s)
  | EmptyString => (EmptyString, EmptyString)
  end.

(** [int(digits or '0')] on a string of digits. *)
Definition int_of_digits (s : string) : N :=
  match NilEmpty.uint_of_string s with
  | Some d => N.of_uint d
  | None => 0%N
  end.

(** An optional sign in front of a literal. *)
Definition split_sign (s : string) : bool * string :=
  match s with
  | String "-" r => (true, r)
  | String "+" r => (false, r)
  | _ => (false, s)
  end.

(** The exponent of a literal: [[-+]?\d+] up to the end of the string. *)
Definition parse_exp (s : string) : option Z :=
  let (neg, ds) := split_sign s in
  match span_digits ds with
  | (String _ _, EmptyString) =>
      let n := Z.of_N (int_of_digits ds) in
      Some (if neg then - n else n)
  | _ => None
  end.

(** A finite literal: digits with an optional fraction and an optional
    exponent, at least one digit in all. *)
Definition parse_number (sign : bool) (s : string) : option decimal :=
  let (intpart, s2) := span_digits s in
  let (fracpart, s3) :=
    match s2 with
    | String "." r => span_digits r
    | _ => (EmptyString, s2)
    end in
  if ((intpart =? "") && (fracpart =? ""))%string then None
  else
    let mk (e : Z) :=
      Finite sign (int_of_digits (intpart ++ fracpart))
             (e - Z.of_nat (String.length fracpart)) in
    match s3 with
    | EmptyString => Some (mk 0)
    | String c r =>
        if (lower c =? "e")%char then option_map mk (parse_exp r) else None
    end.

(** [Inf], [Infinity], [NaN] and [sNaN], in any case, the last two with
    optional diagnostic digits. *)
Definition parse_special (sign : bool) (s : string) : option decimal :=
  let l := lowercase s in
  if ((l =? "inf") || (l =? "infinity"))%string then Some (Infinity sign)
  else
    let (signal, r) :=
      match l with
      | String "s" r => (true, r)
      | _ => (false, l)
      end in
    match r with
    | String "n" (String "a" (String "n" diag)) =>
        match span_digits diag with
        | (_, EmptyString) => Some (NaN sign signal (int_of_digits diag))
        | _ => None
        end
    | _ => None
    end.

(** [Decimal(value)] for a string [value]: the constructor of Python 3's
    [decimal] module.  White space around the literal and underscores are
    dropped, the literal is read exactly, and anything that is not a numeric
    string raises [InvalidOperation].  Strings are ASCII text, and the
    coefficient and the exponent are unbounded. *)
Definition Decimal (value : string) : result decimal :=
  let (sign, body) := split_sign (remove_underscores (strip value)) in
  match parse_number sign body with
  | Some d => Ok d
  | None =>
      match parse_special sign body with
      | Some d => Ok d
      | None => Raise (InvalidOperation value)
      end
  end.

(** *** [str] of a [Decimal]

    [Decimal.__str__]: plain notation when the exponent is at most 0 and the
    number is not too small, scientific notation with one digit before the
    point otherwise. *)

(** The digits of a natural number, as [str] of a non-negative [int]. *)
Definition digits_of_N (n : N) : string :=
  NilZero.string_of_uint (N.to_uint n).

Fixpoint zeros (n : nat) : string :=
  match n with
  | O => EmptyString
  | S k => String "0" (zeros k)
  end.

(** Python's ["%+d" % z]. *)
Definition format_signed (z : Z) : string :=
  if z <? 0 then String "-" (digits_of_N (Z.abs_N z))
  else String "+" (digits_of_N (Z.abs_N z)).

Definition sign_str (sign : bool) : string := if sign then "-" else "".

Definition decimal_str (d : decimal) : string :=
  match d with
  | Infinity s => sign_str s ++ "Infinity"
  | NaN s signal p =>
      sign_str s ++ (if signal then "sNaN" else "NaN")
      ++ (if (p =? 0)%N then "" else digits_of_N p)
  | Finite s c e =>
      let int_ := digits_of_N c in
      let len := String.length int_ in
      let leftdigits := e + Z.of_nat len in
      let dotplace :=
        if (e <=? 0) && (-6 <? leftdigits) then leftdigits else 1 in
      let (intpart, fracpart) :=
        if dotplace <=? 0 then
          ("0", "." ++ zeros (Z.to_nat (- dotplace)) ++ int_)
        else if Z.of_nat len <=? dotplace then
          (int_ ++ zeros (Z.to_nat dotplace - len), "")
        else
          (substring 0 (Z.to_nat dotplace) int_,
           "." ++ substring (Z.to_nat dotplace) (len - Z.to_nat dotplace) int_)
      in
      let exp :=
        if leftdigits =? dotplace then ""
        else String "E" (format_signed (leftdigits - dotplace)) in
      sign_str s ++ intpart ++ fracpart ++ exp
  end.

#[export] Instance PyStr_decimal : PyStr decimal := decimal_str.

(** *** Notions used to reason about literals *)

Fixpoint all_digits (s : string) : bool :=
  match s with
  | EmptyString => true
  | String c r => is_digit c && all_digits r
  end.

(** No white space and no underscore: what [Decimal] reads as it stands. *)
Fixpoint verbatim (s : string) : bool :=
  match s with
  | EmptyString => true
  | String c r => negb (is_space c) && negb (c =? "_")%char && verbatim r
  end.

(** The next character, if any, is not a digit. *)
Definition no_digit_ahead (s : string) : Prop :=
  match s with
  | EmptyString => True
  | String c _ => is_digit c = false
  end.

(** The exponent part that [Decimal.__str__] writes for [x]. *)
Definition exp_part (x : Z) : string :=
  if x =? 0 then "" else String "E" (format_signed x).

(** ** The handler and its collaborators *)

Section ExecutionHandler.

(** [Timestamp] is whatever the price handler uses for market time, and
    [Num] the numeric type of its prices; the handler only ever takes the
    [str] of a price. *)
Context {Timestamp Num : Type} `{PyStr Num}.

(** The event handed to [execute_order], by the attributes the handler
    reads.  Only an event whose [type] is ['ORDER'] has its other attributes
    read. *)
Record Event : Type := {
  type : string;
  ticker : string;
  action : string;
  quantity : Z
}.

(** Modelled from the spec: [FillEvent] of [qstrader/event/event.py], which
    is not part of the sources at hand.  It carries the seven fields the
    handler passes to its constructor, in that order. *)
Record Fill : Type := FillEvent {
  fill_timestamp : Timestamp;
  fill_ticker : string;
  fill_action : string;
  fill_quantity : Z;
  fill_exchange : string;
  fill_price : decimal;
  fill_commission : decimal
}.

(** What the shared queue carries: events of other components, and fills. *)
Inductive QueueItem : Type :=
| QEvent (e : Event)
| QFill (f : Fill).

(** The price handler, by the attribute and the three methods the handler
    uses.  A lookup either returns or raises. *)
Record PriceHandler : Type := {
  price_handler_type : string;
  get_last_timestamp : string -> result Timestamp;
  get_best_bid_ask : string -> result (Num * Num);
  get_last_close : string -> result Num
}.

(** The compliance recorder, by its one method. *)
Record Compliance : Type := {
  record_trade : Fill -> result unit
}.

(** A call made to a collaborator. *)
Inductive Call : Type :=
| Call_get_last_timestamp (t : string)
| Call_get_best_bid_ask (t : string)
| Call_get_last_close (t : string)
| Call_put (item : QueueItem)
| Call_record_trade (f : Fill).

(** The part of the world the handler can change: the contents of the
    shared events queue (oldest first) and the log of collaborator calls. *)
Record World : Type := {
  events_queue : list QueueItem;
  calls : list Call
}.

(** [IBSimulatedExecutionHandler.__init__]: the handler keeps a reference to
    the queue, which is [events_queue] of the world, the price handler and
    the optional recorder ([None] when absent). *)
Record IBSimulatedExecutionHandler : Type := {
  price_handler : PriceHandler;
  compliance : option Compliance
}.

(** *** State and exceptions

    A computation takes the world and gives back a result and the world as
    it left it.  An exception keeps every change made before it was raised:
    nothing is rolled back. *)
Definition M (A : Type) : Type := World -> result A * World.

Definition ret {A : Type} (a : A) : M A := fun w => (Ok a, w).

Definition bind {A B : Type} (m : M A) (k : A -> M B) : M B :=
  fun w =>
    match m w with
    | (Ok a, w') => k a w'
    | (Raise e, w') => (Raise e, w')
    end.

Definition lift {A : Type} (r : result A) : M A := fun w => (r, w).

Definition log (c : Call) : M unit :=
  fun w => (Ok tt, {| events_queue := events_queue w; calls := calls w ++ [c] |}).

Notation "x <- m ;; k" := (bind m (fun x => k))
  (at level 61, m at next level, right associativity).
Notation "' p <- m ;; k" := (bind m (fun x => let 'p := x in k))
  (at level 61, p pattern, m at next level, right associativity).
Notation "m ;;; k" := (bind m (fun _ => k))
  (at level 61, right associativity).

(** [events_queue.put(item)]: the item goes to the back of the queue. *)
Definition put (item : QueueItem) : M unit :=
  fun w =>
    (Ok tt, {| events_queue := events_queue w ++ [item];
               calls := calls w ++ [Call_put item] |}).

(** Calls into the price handler and the recorder: logged, then run. *)
Definition call_get_last_timestamp (ph : PriceHandler) (t : string)
  : M Timestamp :=
  log (Call_get_last_timestamp t) ;;; lift (get_last_timestamp ph t).

Definition call_get_best_bid_ask (ph : PriceHandler) (t : string)
  : M (Num * Num) :=
  log (Call_get_best_bid_ask t) ;;; lift (get_best_bid_ask ph t).

Definition call_get_last_close (ph : PriceHandler) (t : string) : M Num :=
  log (Call_get_last_close t) ;;; lift (get_last_close ph t).

Definition call_record_trade (c : Compliance) (f : Fill) : M unit :=
  log (Call_record_trade f) ;;; lift (record_trade c f).

(** *** The handler's methods *)

(** [calculate_ib_commission]: one dollar, whatever the lot size. *)
Definition calculate_ib_commission (self : IBSimulatedExecutionHandler)
  : result decimal :=
  Decimal "1.00".

(** The body of [execute_order]: an order event becomes a fill on the
    queue.  The commission is [self.calculate_ib_commission()], a method
    that Python looks up on [self] when the line runs; the body is written
    against that method, [commission_method], so that a handler whose class
    defines another one runs the same body. *)
Definition execute_order_with
    (commission_method : IBSimulatedExecutionHandler -> result decimal)
    (self : IBSimulatedExecutionHandler) (event : Event)
  : M unit :=
  if (type event =? "ORDER")%string then
    timestamp <- call_get_last_timestamp (price_handler self) (ticker event) ;;
    let ticker_ := ticker event in
    let action_ := action event in
    let quantity_ := quantity event in
    fill_price <-
      (if (price_handler_type (price_handler self) =? "TICK_HANDLER")%string
       then
         '(bid, ask) <- call_get_best_bid_ask (price_handler self) ticker_ ;;
         if (action event =? "BOT")%string
         then lift (Decimal (str ask))
         else lift (Decimal (str bid))
       else
         close_price <- call_get_last_close (price_handler self) ticker_ ;;
         lift (Decimal (str close_price))) ;;
    let exchange := "ARCA" in
    commission <- lift (commission_method self) ;;
    let fill_event :=
      FillEvent timestamp ticker_ action_ quantity_ exchange fill_price
                commission in
    put (QFill fill_event) ;;;
    match compliance self with
    | Some recorder => call_record_trade recorder fill_event
    | None => ret tt
    end
  else ret tt.

(** [execute_order] of [IBSimulatedExecutionHandler]: the body, with the
    method the class defines. *)
Definition execute_order (self : IBSimulatedExecutionHandler) (event : Event)
  : M unit :=
  execute_order_with calculate_ib_commission self event.

(** *** Notions used to state the properties *)

(** A call that only reads the price handler. *)
Definition is_price_lookup (c : Call) : bool :=
  match c with
  | Call_get_last_timestamp _ | Call_get_best_bid_ask _
  | Call_get_last_close _ => true
  | Call_put _ | Call_record_trade _ => false
  end.

End ExecutionHandler.

(** The flat fee, [Decimal("1.00")]. *)
Definition one_dollar : decimal := Finite false 100 (-2).

(** ** Concrete collaborators

    The two scenarios of the specification: a tick source quoting MSFT at
    50.20 / 50.25 and a bar source with AAPL closing at 101.37, both priced
    in [Decimal] and stamped with seconds since the epoch. *)

Definition T0 : Z := 1454284800.

Definition tick_source : @PriceHandler Z decimal := {|
  price_handler_type := "TICK_HANDLER";
  get_last_timestamp :=
    fun t => if (t =? "MSFT")%string then Ok T0 else Raise (KeyError t);
  get_best_bid_ask :=
    fun t =>
      if (t =? "MSFT")%string
      then Ok (Finite false 5020 (-2), Finite false 5025 (-2))
      else Raise (KeyError t);
  get_last_close := fun t => Raise (KeyError t)
|}.

Definition bar_source : @PriceHandler Z decimal := {|
  price_handler_type := "BAR_HANDLER";
  get_last_timestamp :=
    fun t => if (t =? "AAPL")%string then Ok T0 else Raise (KeyError t);
  get_best_bid_ask := fun t => Raise (KeyError t);
  get_last_close :=
    fun t =>
      if (t =? "AAPL")%string
      then Ok (Finite false 10137 (-2)) else Raise (KeyError t)
|}.

(** A tick source that knows when GOOG last traded but has no quote. *)
Definition stale_source : @PriceHandler Z decimal := {|
  price_handler_type := "TICK_HANDLER";
  get_last_timestamp := fun t => Ok T0;
  get_best_bid_ask := fun t => Raise (KeyError t);
  get_last_close := fun t => Raise (KeyError t)
|}.

Definition recorder_ok : @Compliance Z := {|
  record_trade := fun _ => Ok tt
|}.

Definition recorder_broken : @Compliance Z := {|
  record_trade := fun _ => Raise (PyError "IOError" "disk full")
|}.

Definition buy_msft : Event :=
  {| type := "ORDER"; ticker := "MSFT"; action := "BOT"; quantity := 100 |}.

Definition sell_msft : Event :=
  {| type := "ORDER"; ticker := "MSFT"; action := "SLD"; quantity := 100 |}.

Definition hold_msft : Event :=
  {| type := "ORDER"; ticker := "MSFT"; action := "HOLD"; quantity := 100 |}.

Definition sell_aapl : Event :=
  {| type := "ORDER"; ticker := "AAPL"; action := "SLD"; quantity := 50 |}.

Definition buy_goog : Event :=
  {| type := "ORDER"; ticker := "GOOG"; action := "BOT"; quantity := 10 |}.

Definition tick_msft : Event :=
  {| type := "TICK"; ticker := "MSFT"; action := ""; quantity := 0 |}.

Definition empty_world : @World Z := {| events_queue := []; calls := [] |}.

Definition fill_of (ts : Z) (e : Event) (p : decimal) : @Fill Z :=
  FillEvent ts (ticker e) (action e) (quantity e) "ARCA" p one_dollar.

Definition tick_handler : IBSimulatedExecutionHandler :=
  {| price_handler := tick_source; compliance := Some recorder_ok |}.

Definition tick_handler_bare : IBSimulatedExecutionHandler :=
  {| price_handler := tick_source; compliance := None |}.

Definition tick_handler_broken : IBSimulatedExecutionHandler :=
  {| price_handler := tick_source; compliance := Some recorder_broken |}.

Definition bar_handler : IBSimulatedExecutionHandler :=
  {| price_handler := bar_source; compliance := None |}.

Definition stale_handler : IBSimulatedExecutionHandler :=
  {| price_handler := stale_source; compliance := Some recorder_ok |}.

Definition bid_msft : decimal := Finite false 5020 (-2).
Definition ask_msft : decimal := Finite false 5025 (-2).
Definition close_aapl : decimal := Finite false 10137 (-2).

(** The world after a run, started from [empty_world], that made the calls
    [lookups], published [f] and, if [recorded], passed it to the
    recorder. *)
Definition world_after (lookups : list (@Call Z)) (f : @Fill Z)
    (recorded : bool) : @World Z :=
  {| events_queue := [QFill f];
     calls := (lookups ++
               Call_put (QFill f) ::
               (if recorded then [Call_record_trade f] else []))%list |}.

Definition tick_lookups (t : string) : list (@Call Z) :=
  [Call_get_last_timestamp t; Call_get_best_bid_ask t].

Definition bar_lookups (t : string) : list (@Call Z) :=
  [Call_get_last_timestamp t; Call_get_last_close t].

(** ** Further notions: the run of the handler, step by step *)

Section Run.

Context {Timestamp Num : Type} `{PyStr Num}.

(** [ExecutionHandler.execute_order], the abstract method of the base
    class: it only raises. *)
Definition ExecutionHandler_execute_order (self : unit) (event : Event)
  : @M Timestamp unit :=
  lift (Raise (PyError "NotImplementedError"
                       "Should implement execute_order()")).

(** The one price lookup the handler makes for an order: the best bid and
    ask on a tick source, the last close on any other. *)
Definition price_lookup (self : @IBSimulatedExecutionHandler Timestamp Num)
    (event : Event) : @Call Timestamp :=
  if (price_handler_type (price_handler self) =? "TICK_HANDLER")%string
  then Call_get_best_bid_ask (ticker event)
  else Call_get_last_close (ticker event).

(** What that lookup gives the handler to convert: on a tick source the ask
    for a "BOT" order and the bid for any other, on any other source the
    close; or the exception the lookup raised. *)
Definition quote (self : @IBSimulatedExecutionHandler Timestamp Num)
    (event : Event) : result Num :=
  if (price_handler_type (price_handler self) =? "TICK_HANDLER")%string
  then
    match get_best_bid_ask (price_handler self) (ticker event) with
    | Ok (bid, ask) =>
        Ok (if (action event =? "BOT")%string then ask else bid)
    | Raise e => Raise e
    end
  else get_last_close (price_handler self) (ticker event).

(** The world after the calls [l], with the queue as it was. *)
Definition logged (w : @World Timestamp) (l : list Call) : World :=
  {| events_queue := events_queue w; calls := (calls w ++ l)%list |}.

(** The world after the calls [l], with [f] at the back of the queue. *)
Definition queued (w : @World Timestamp) (f : Fill) (l : list Call) : World :=
  {| events_queue := (events_queue w ++ [QFill f])%list;
     calls := (calls w ++ l)%list |}.

(** The fill the handler builds from a timestamp and a price. *)
Definition fill_for (event : Event) (ts : Timestamp) (p : decimal) : Fill :=
  FillEvent ts (ticker event) (action event) (quantity event) "ARCA" p
            one_dollar.

End Run.

(** A bar source whose feed has a hole: the close of AAPL is the text
    "n/a". *)
Definition text_source : @PriceHandler Z string := {|
  price_handler_type := "BAR_HANDLER";
  get_last_timestamp := fun t => Ok T0;
  get_best_bid_ask := fun t => Raise (KeyError t);
  get_last_close := fun t => Ok "n/a"
|}.

Definition text_handler : IBSimulatedExecutionHandler :=
  {| price_handler := text_source; compliance := Some recorder_ok |}.

(** A tick source that quotes in whole cents, as [int]. *)
Definition cents_source : @PriceHandler Z Z := {|
  price_handler_type := "TICK_HANDLER";
  get_last_timestamp := fun t => Ok T0;
  get_best_bid_ask := fun t => Ok (5020, 5025);
  get_last_close := fun t => Raise (KeyError t)
|}.

Definition cents_handler : IBSimulatedExecutionHandler :=
  {| price_handler := cents_source; compliance := None |}.

Definition sell_zero_msft : Event :=
  {| type := "ORDER"; ticker := "MSFT"; action := "SLD"; quantity := 0 |}.

(** ** Examples *)

Example Decimal_1_00 : Decimal "1.00" = Ok (Finite false 100 (-2)).
Proof. reflexivity. Qed.

Example Decimal_50_25 : Decimal "50.25" = Ok (Finite false 5025 (-2)).
Proof. reflexivity. Qed.

Example Decimal_exp : Decimal " -1.5E+3 " = Ok (Finite true 15 2).
Proof. reflexivity. Qed.

Example Decimal_dot5 : Decimal ".5" = Ok (Finite false 5 (-1)).
Proof. reflexivity. Qed.

Example Decimal_nan : Decimal "nan" = Ok (NaN false false 0).
Proof. reflexivity. Qed.

Example Decimal_None : Decimal "None" = Raise (InvalidOperation "None").
Proof. reflexivity. Qed.

Example Decimal_dot : Decimal "." = Raise (InvalidOperation ".").
Proof. reflexivity. Qed.

Example str_int_neg : str (-42) = "-42".
Proof. reflexivity. Qed.

Example str_decimal_plain : str (Finite false 5025 (-2)) = "50.25".
Proof. reflexivity. Qed.

Example str_decimal_small : str (Finite false 5 (-3)) = "0.005".
Proof. reflexivity. Qed.

Example str_decimal_sci : str (Finite true 123 4) = "-1.23E+6".
Proof. reflexivity. Qed.

Example str_decimal_tiny : str (Finite false 1 (-7)) = "1E-7".
Proof. reflexivity. Qed.

Example str_decimal_tiny2 : str (Finite false 12 (-8)) = "1.2E-7".
Proof. reflexivity. Qed.

Example str_decimal_zero : str (Finite false 0 (-2)) = "0.00".
Proof. reflexivity. Qed.

Example str_decimal_zero_exp : str (Finite false 0 3) = "0E+3".
Proof. reflexivity. Qed.

Example str_decimal_nan : str (NaN true true 12) = "-sNaN12".
Proof. reflexivity. Qed.

(** ** [Decimal] reads back what [str] writes *)

Section DecimalRoundTrip.

Lemma length_append (a b : string) :
  String.length (a ++ b) = (String.length a + String.length b)%nat.
Proof. induction a; simpl; congruence. Qed.

Lemma append_nil_r (a : string) : a ++ "" = a.
Proof. induction a; simpl; congruence. Qed.

Lemma append_assoc (a b c : string) : (a ++ b) ++ c = a ++ b ++ c.
Proof. induction a; simpl; congruence. Qed.

Lemma all_digits_append (a b : string) :
  all_digits (a ++ b) = all_digits a && all_digits b.
Proof. induction a; simpl; [reflexivity|]. now rewrite IHa, andb_assoc. Qed.

Lemma verbatim_append (a b : string) :
  verbatim (a ++ b) = verbatim a && verbatim b.
Proof. induction a; simpl; [reflexivity|]. now rewrite IHa, !andb_assoc. Qed.

Lemma is_digit_verbatim (c : ascii) :
  is_digit c = true -> negb (is_space c) && negb (c =? "_")%char = true.
Proof.
  destruct c as [[] [] [] [] [] [] [] []]; vm_compute; congruence.
Qed.

Lemma all_digits_verbatim (s : string) :
  all_digits s = true -> verbatim s = true.
Proof.
  induction s as [|c r IH]; simpl; [reflexivity|].
  intros [Hc Hr]%andb_prop. now rewrite (is_digit_verbatim c Hc), IH.
Qed.

Lemma all_digits_zeros (k : nat) : all_digits (zeros k) = true.
Proof. induction k; simpl; auto. Qed.

Lemma all_digits_string_of_uint (d : Decimal.uint) :
  all_digits (NilEmpty.string_of_uint d) = true.
Proof. induction d; simpl; auto. Qed.

Lemma digits_of_N_eq (n : N) :
  digits_of_N n = NilEmpty.string_of_uint (N.to_uint n).
Proof.
  unfold digits_of_N, NilZero.string_of_uint.
  destruct (N.to_uint n) eqn:E; try reflexivity.
  destruct n as [|p]; [discriminate E|].
  now apply DecimalPos.Unsigned.to_uint_nonnil in E.
Qed.

Lemma all_digits_digits_of_N (n : N) : all_digits (digits_of_N n) = true.
Proof. rewrite digits_of_N_eq. apply all_digits_string_of_uint. Qed.

Lemma digits_of_N_cons (n : N) :
  exists c r, digits_of_N n = String c r /\ is_digit c = true.
Proof.
  pose proof (all_digits_digits_of_N n) as Hd.
  unfold digits_of_N, NilZero.string_of_uint in *.
  destruct (N.to_uint n); simpl in *; eauto;
    eexists _, _; (split; [reflexivity|reflexivity]).
Qed.

Lemma int_of_digits_of_N (n : N) : int_of_digits (digits_of_N n) = n.
Proof.
  unfold int_of_digits. rewrite digits_of_N_eq, NilEmpty.usu.
  apply DecimalN.Unsigned.of_to.
Qed.

Lemma int_of_digits_zero (s : string) :
  int_of_digits (String "0" s) = int_of_digits s.
Proof.
  unfold int_of_digits. simpl.
  destruct (NilEmpty.uint_of_string s); reflexivity.
Qed.

Lemma int_of_digits_zeros (k : nat) (s : string) :
  int_of_digits (zeros k ++ s) = int_of_digits s.
Proof. induction k; simpl; [reflexivity|]. now rewrite int_of_digits_zero. Qed.

Lemma span_digits_append (ds rest : string) :
  all_digits ds = true -> no_digit_ahead rest ->
  span_digits (ds ++ rest) = (ds, rest).
Proof.
  intros Hd Hr. induction ds as [|c r IH]; cbn [append span_digits all_digits] in *.
  - destruct rest; [reflexivity|]. cbn [no_digit_ahead span_digits] in *.
    now rewrite Hr.
  - apply andb_prop in Hd as [Hc Hd]. now rewrite Hc, IH.
Qed.

Lemma span_digits_all (ds : string) :
  all_digits ds = true -> span_digits ds = (ds, "").
Proof.
  intro Hd. rewrite <- (append_nil_r ds) at 1.
  now apply span_digits_append.
Qed.

Lemma parse_exp_format_signed (z : Z) : parse_exp (format_signed z) = Some z.
Proof.
  unfold format_signed, parse_exp.
  destruct (digits_of_N_cons (Z.abs_N z)) as (c & r & Hc & Hd).
  pose proof (all_digits_digits_of_N (Z.abs_N z)) as Ha.
  pose proof (int_of_digits_of_N (Z.abs_N z)) as Hi.
  destruct (z <? 0) eqn:Hz; cbn [split_sign];
    rewrite (span_digits_all _ Ha), Hc; rewrite Hc in Hi; rewrite Hi;
    f_equal; lia.
Qed.

Lemma no_digit_ahead_exp_part (x : Z) : no_digit_ahead (exp_part x).
Proof. unfold exp_part. now destruct (x =? 0). Qed.

Lemma parse_number_plain (sign : bool) (ip : string) (x : Z) :
  all_digits ip = true -> ip <> "" ->
  parse_number sign (ip ++ exp_part x)
  = Some (Finite sign (int_of_digits ip) x).
Proof.
  intros Hi Hn. unfold parse_number.
  rewrite (span_digits_append _ _ Hi (no_digit_ahead_exp_part x)).
  apply String.eqb_neq in Hn.
  unfold exp_part. destruct (x =? 0) eqn:Hx.
  - rewrite Hn. cbn. rewrite append_nil_r. do 2 f_equal. lia.
  - cbn [span_digits]. rewrite Hn. cbn -[parse_exp format_signed].
    rewrite parse_exp_format_signed, append_nil_r. cbn. do 2 f_equal. lia.
Qed.

Lemma parse_number_point (sign : bool) (ip fp : string) (x : Z) :
  all_digits ip = true -> all_digits fp = true -> ip <> "" ->
  parse_number sign (ip ++ String "." (fp ++ exp_part x))
  = Some (Finite sign (int_of_digits (ip ++ fp))
                 (x - Z.of_nat (String.length fp))).
Proof.
  intros Hi Hf Hn. unfold parse_number.
  rewrite (span_digits_append _ _ Hi) by reflexivity.
  rewrite (span_digits_append _ _ Hf (no_digit_ahead_exp_part x)).
  apply String.eqb_neq in Hn. rewrite Hn. cbn [andb].
  unfold exp_part. destruct (x =? 0) eqn:Hx.
  - do 3 f_equal. lia.
  - cbn -[parse_exp format_signed int_of_digits].
    now rewrite parse_exp_format_signed.
Qed.

Lemma length_zeros (k : nat) : String.length (zeros k) = k.
Proof. induction k; simpl; congruence. Qed.

Lemma substring_split (k : nat) (s : string) :
  (k <= String.length s)%nat ->
  substring 0 k s ++ substring k (String.length s - k) s = s.
Proof.
  revert k. induction s as [|c r IH]; intros [|k] Hk; simpl in *;
    try lia; try reflexivity.
  - f_equal. rewrite <- (IH 0%nat) at 3 by lia.
    rewrite Nat.sub_0_r. destruct r; reflexivity.
  - f_equal. apply IH. lia.
Qed.

Lemma length_substring_prefix (k : nat) (s : string) :
  (k <= String.length s)%nat -> String.length (substring 0 k s) = k.
Proof.
  revert k. induction s as [|c r IH]; intros [|k] Hk; simpl in *;
    try lia; try reflexivity.
  f_equal. apply IH. lia.
Qed.

Lemma all_digits_substring (n m : nat) (s : string) :
  all_digits s = true -> all_digits (substring n m s) = true.
Proof.
  revert n m. induction s as [|c r IH]; intros [|n] [|m] Hs; simpl in *;
    try reflexivity; apply andb_prop in Hs as [Hc Hr]; auto.
  rewrite Hc. apply (IH 0%nat m Hr).
Qed.

Lemma exp_part_eq (ld dp : Z) :
  (if ld =? dp then "" else String "E" (format_signed (ld - dp)))
  = exp_part (ld - dp).
Proof.
  unfold exp_part.
  destruct (ld =? dp) eqn:A, (ld - dp =? 0) eqn:B; try reflexivity; lia.
Qed.

(** The shape of what [str] writes for a finite [Decimal]. *)
Lemma decimal_str_finite (s : bool) (c : N) (e : Z) :
  exists (ip fp : string) (x : Z) (dot : bool),
    decimal_str (Finite s c e)
    = sign_str s ++ ip ++
      (if dot then String "." (fp ++ exp_part x) else exp_part x) /\
    all_digits ip = true /\ ip <> "" /\ all_digits fp = true /\
    int_of_digits (ip ++ fp) = c /\
    x - Z.of_nat (String.length fp) = e /\
    (dot = false -> fp = "").
Proof.
  unfold decimal_str.
  pose proof (all_digits_digits_of_N c) as Hd.
  pose proof (int_of_digits_of_N c) as Hc.
  destruct (digits_of_N_cons c) as (c0 & r0 & Hds & _).
  set (ds := digits_of_N c) in *.
  assert (Hlen : (1 <= String.length ds)%nat) by (rewrite Hds; simpl; lia).
  set (len := String.length ds) in *.
  set (ld := e + Z.of_nat len).
  set (dp := if (e <=? 0) && (-6 <? ld) then ld else 1).
  assert (Hdp : dp <= Z.of_nat len).
  { subst dp. destruct ((e <=? 0) && (-6 <? ld)) eqn:C; [|lia].
    apply andb_prop in C as [C _]. lia. }
  rewrite exp_part_eq.
  destruct (dp <=? 0) eqn:C1; [|destruct (Z.of_nat len <=? dp) eqn:C2].
  - exists "0", (zeros (Z.to_nat (- dp)) ++ ds), (ld - dp), true.
    refine (conj _ (conj _ (conj _ (conj _ (conj _ (conj _ _)))))).
    + cbn [append]. now rewrite ?append_assoc.
    + reflexivity.
    + discriminate.
    + now rewrite all_digits_append, all_digits_zeros.
    + cbn [append]. now rewrite int_of_digits_zero, int_of_digits_zeros.
    + rewrite length_append, length_zeros. fold len. lia.
    + discriminate.
  - exists ds, "", (ld - dp), false.
    replace (Z.to_nat dp - len)%nat with 0%nat by lia.
    cbn [zeros]. rewrite !append_nil_r.
    refine (conj _ (conj _ (conj _ (conj _ (conj _ (conj _ _)))))).
    + reflexivity.
    + assumption.
    + rewrite Hds. discriminate.
    + reflexivity.
    + assumption.
    + cbn. lia.
    + reflexivity.
  - exists (substring 0 (Z.to_nat dp) ds),
      (substring (Z.to_nat dp) (len - Z.to_nat dp) ds), (ld - dp), true.
    assert (Hk : (Z.to_nat dp <= len)%nat) by lia.
    pose proof (substring_split _ ds Hk) as Hsplit. fold len in Hsplit.
    pose proof (length_substring_prefix _ ds Hk) as Hpre.
    refine (conj _ (conj _ (conj _ (conj _ (conj _ (conj _ _)))))).
    + cbn [append]. now rewrite ?append_assoc.
    + now apply all_digits_substring.
    + intro E. rewrite E in Hpre. simpl in Hpre. lia.
    + now apply all_digits_substring.
    + now rewrite Hsplit.
    + apply (f_equal String.length) in Hsplit.
      rewrite length_append, Hpre in Hsplit. fold len in Hsplit. lia.
    + discriminate.
Qed.

Lemma rstrip_verbatim (v : string) : verbatim v = true -> rstrip v = v.
Proof.
  induction v as [|c r IH]; cbn [verbatim rstrip]; [reflexivity|].
  intros [[Hs _]%andb_prop Hr]%andb_prop.
  apply negb_true_iff in Hs. now rewrite Hs, (IH Hr).
Qed.

Lemma strip_verbatim (v : string) : verbatim v = true -> strip v = v.
Proof.
  intro Hv. unfold strip.
  replace (lstrip v) with v; [now apply rstrip_verbatim|].
  destruct v as [|c r]; [reflexivity|]. cbn [verbatim lstrip] in *.
  apply andb_prop in Hv as [[Hs _]%andb_prop _].
  apply negb_true_iff in Hs. now rewrite Hs.
Qed.

Lemma remove_underscores_verbatim (v : string) :
  verbatim v = true -> remove_underscores v = v.
Proof.
  induction v as [|c r IH]; cbn [verbatim remove_underscores]; [reflexivity|].
  intros [[_ Hu]%andb_prop Hr]%andb_prop.
  apply negb_true_iff in Hu. now rewrite Hu, (IH Hr).
Qed.

Lemma split_sign_digit (c : ascii) (r : string) :
  is_digit c = true -> split_sign (String c r) = (false, String c r).
Proof.
  destruct c as [[] [] [] [] [] [] [] []]; try reflexivity;
    vm_compute; discriminate.
Qed.

(** [Decimal] on a literal with no white space and no underscore. *)
Lemma Decimal_verbatim (sign : bool) (body : string) :
  verbatim body = true ->
  split_sign body = (false, body) ->
  Decimal (sign_str sign ++ body)
  = match parse_number sign body with
    | Some d => Ok d
    | None =>
        match parse_special sign body with
        | Some d => Ok d
        | None => Raise (InvalidOperation (sign_str sign ++ body))
        end
    end.
Proof.
  intros Hv Hs. unfold Decimal.
  assert (Hv' : verbatim (sign_str sign ++ body) = true).
  { rewrite verbatim_append, Hv. now destruct sign. }
  rewrite (strip_verbatim _ Hv'), (remove_underscores_verbatim _ Hv').
  destruct sign; cbn [sign_str append split_sign]; [reflexivity|].
  now rewrite Hs.
Qed.

Lemma verbatim_exp_part (x : Z) : verbatim (exp_part x) = true.
Proof.
  unfold exp_part, format_signed.
  destruct (x =? 0); [reflexivity|].
  destruct (x <? 0); cbn [verbatim]; cbn;
    apply all_digits_verbatim, all_digits_digits_of_N.
Qed.

Lemma lower_digit (c : ascii) : is_digit c = true -> lower c = c.
Proof.
  destruct c as [[] [] [] [] [] [] [] []]; try reflexivity;
    vm_compute; discriminate.
Qed.

Lemma lowercase_digits (s : string) : all_digits s = true -> lowercase s = s.
Proof.
  induction s as [|c r IH]; cbn [all_digits lowercase]; [reflexivity|].
  intros [Hc Hr]%andb_prop. now rewrite (lower_digit c Hc), (IH Hr).
Qed.

(** [Decimal(str(d))] is [d], for every [Decimal] [d]: the textual form
    holds the sign, every digit of the coefficient and the exponent. *)
Lemma Decimal_str_decimal (d : decimal) : Decimal (str d) = Ok d.
Proof.
  destruct d as [s c e | s | s signal p].
  - destruct (decimal_str_finite s c e)
      as (ip & fp & x & dot & Hstr & Hip & Hne & Hfp & Hc & He & Hdot).
    unfold str, PyStr_decimal. rewrite Hstr.
    assert (Hhead : split_sign ip = (false, ip)).
    { destruct ip as [|c0 r0]; [congruence|].
      cbn [all_digits] in Hip. apply andb_prop in Hip as [H0 _].
      now apply split_sign_digit. }
    destruct dot.
    + rewrite Decimal_verbatim.
      * rewrite (parse_number_point s ip fp x Hip Hfp Hne).
        now rewrite Hc, He.
      * rewrite !verbatim_append. cbn [verbatim].
        rewrite verbatim_append, verbatim_exp_part.
        now rewrite !all_digits_verbatim.
      * destruct ip as [|c0 r0]; [congruence|].
        cbn [all_digits] in Hip. apply andb_prop in Hip as [H0 _].
        cbn [append]. now apply split_sign_digit.
    + rewrite (Hdot eq_refl) in *. rewrite append_nil_r in Hc.
      rewrite Decimal_verbatim.
      * rewrite (parse_number_plain s ip x Hip Hne). cbn in He.
        rewrite Hc. do 2 f_equal. lia.
      * rewrite !verbatim_append, verbatim_exp_part.
        now rewrite !all_digits_verbatim.
      * destruct ip as [|c0 r0]; [congruence|].
        cbn [all_digits] in Hip. apply andb_prop in Hip as [H0 _].
        cbn [append]. now apply split_sign_digit.
  - now destruct s.
  - unfold str, PyStr_decimal, decimal_str.
    destruct (p =? 0)%N eqn:Hp.
    + apply N.eqb_eq in Hp. subst p. now destruct s, signal.
    + pose proof (all_digits_digits_of_N p) as Hd.
      pose proof (int_of_digits_of_N p) as Hi.
      rewrite Decimal_verbatim.
      * unfold parse_special.
        destruct signal; cbn -[digits_of_N int_of_digits span_digits];
          rewrite (lowercase_digits _ Hd), (span_digits_all _ Hd), Hi;
          reflexivity.
      * rewrite verbatim_append, (all_digits_verbatim _ Hd).
        now destruct signal.
      * now destruct signal.
Qed.

(** [Decimal(str(z))] is [z] with exponent 0, for every [int] [z]. *)
Lemma str_int_eq (z : Z) :
  str z = sign_str (z <? 0) ++ digits_of_N (Z.abs_N z).
Proof. now destruct z. Qed.

Lemma Decimal_str_int (z : Z) :
  Decimal (str z) = Ok (Finite (z <? 0) (Z.abs_N z) 0).
Proof.
  rewrite str_int_eq.
  pose proof (all_digits_digits_of_N (Z.abs_N z)) as Hd.
  destruct (digits_of_N_cons (Z.abs_N z)) as (c & r & Hds & Hc).
  rewrite Decimal_verbatim.
  - rewrite <- (append_nil_r (digits_of_N _)).
    change "" with (exp_part 0) at 1.
    rewrite parse_number_plain, int_of_digits_of_N;
      [reflexivity | assumption | rewrite Hds; discriminate].
  - now apply all_digits_verbatim.
  - rewrite Hds. now apply split_sign_digit.
Qed.
End DecimalRoundTrip.

(** ** Properties of [execute_order] *)

Local Open Scope list_scope.

Section Properties.

Context {Timestamp Num : Type} `{PyStr Num}.

Implicit Types (self : @IBSimulatedExecutionHandler Timestamp Num).
Implicit Types (event : Event) (w : @World Timestamp) (f : @Fill Timestamp).

Lemma app_one_neq {A : Type} (l : list A) (x : A) : l ++ [x] <> l.
Proof.
  intro E. apply (f_equal (@length A)) in E.
  rewrite length_app in E. simpl in E. lia.
Qed.

Lemma app_one_inj {A : Type} (l : list A) (x y : A) :
  l ++ [x] = l ++ [y] -> x = y.
Proof. intro E. apply app_inv_head in E. now inversion E. Qed.

Lemma calculate_ib_commission_value self :
  calculate_ib_commission self = Ok one_dollar.
Proof. reflexivity. Qed.

(** Case analysis on a run of the handler, innermost test first. *)
Ltac break_in E :=
  match type of E with
  | context [match ?x with _ => _ end] =>
      lazymatch x with
      | context [match _ with _ => _ end] => fail
      | _ => destruct x eqn:?; cbv beta iota in E
      end
  end.

Ltac run_in E :=
  cbv [execute_order execute_order_with bind call_get_last_timestamp call_get_best_bid_ask
       call_get_last_close call_record_trade log lift put ret] in E;
  rewrite ?calculate_ib_commission_value in E;
  repeat break_in E;
  inversion E; subst; clear E; cbn [events_queue calls] in *.

Ltac same_fill Q :=
  apply app_one_inj in Q; inversion Q; subst; clear Q.

Ltac stuck Q :=
  solve [ symmetry in Q; now apply app_one_neq in Q
        | now apply app_one_neq in Q ].

(** An event of another kind goes through untouched. *)
Lemma execute_order_ignores self event w :
  type event <> "ORDER" -> execute_order self event w = (Ok tt, w).
Proof.
  intro Ht. apply String.eqb_neq in Ht.
  unfold execute_order, execute_order_with. now rewrite Ht.
Qed.

(** Everything there is to know about a run that put a fill on the queue. *)
Lemma execute_order_published self event w r w' f :
  type event = "ORDER" ->
  execute_order self event w = (r, w') ->
  events_queue w' = events_queue w ++ [QFill f] ->
  exists ts p pre,
    get_last_timestamp (price_handler self) (ticker event) = Ok ts /\
    (if (price_handler_type (price_handler self) =? "TICK_HANDLER")%string
     then exists bid ask,
         get_best_bid_ask (price_handler self) (ticker event) = Ok (bid, ask)
         /\ Decimal (str (if (action event =? "BOT")%string
                          then ask else bid)) = Ok p
     else exists close_price,
         get_last_close (price_handler self) (ticker event) = Ok close_price
         /\ Decimal (str close_price) = Ok p) /\
    f = FillEvent ts (ticker event) (action event) (quantity event)
                  "ARCA" p one_dollar /\
    forallb is_price_lookup pre = true /\
    match compliance self with
    | Some recorder =>
        calls w' = calls w ++ pre ++ [Call_put (QFill f); Call_record_trade f]
        /\ r = record_trade recorder f
    | None =>
        calls w' = calls w ++ pre ++ [Call_put (QFill f)] /\ r = Ok tt
    end.
Proof.
  intros Ht E Q. apply String.eqb_eq in Ht.
  run_in E; try stuck Q; try discriminate Ht; same_fill Q.
  all: match goal with
       | |- context [Call_get_best_bid_ask ?t] =>
           eexists _, _, [Call_get_last_timestamp t; Call_get_best_bid_ask t]
       | |- context [Call_get_last_close ?t] =>
           eexists _, _, [Call_get_last_timestamp t; Call_get_last_close t]
       end.
  all: split; [reflexivity|]; split; [eauto|]; split; [reflexivity|];
    split; [reflexivity|].
  all: rewrite <- ?app_assoc; cbn [app]; split; reflexivity.
Qed.

(** A run on an order event either fails in a lookup or in the conversion
    of the price, having only read the price handler, or publishes. *)
Lemma execute_order_outcome self event w r w' :
  type event = "ORDER" ->
  execute_order self event w = (r, w') ->
  (exists e pre,
      r = Raise e /\ events_queue w' = events_queue w /\
      calls w' = calls w ++ pre /\ forallb is_price_lookup pre = true)
  \/ (exists f, events_queue w' = events_queue w ++ [QFill f]).
Proof.
  intros Ht E. apply String.eqb_eq in Ht.
  run_in E; try discriminate Ht; try (right; eexists; reflexivity).
  all: left; eexists; rewrite <- ?app_assoc; cbn [app].
  all: eexists; repeat split; reflexivity.
Qed.

(** The three ways a lookup can fail, and where the run stops. *)
Lemma execute_order_no_timestamp self event w e :
  type event = "ORDER" ->
  get_last_timestamp (price_handler self) (ticker event) = Raise e ->
  execute_order self event w =
    (Raise e, {| events_queue := events_queue w;
                 calls := calls w ++
                          [Call_get_last_timestamp (ticker event)] |}).
Proof.
  intros Ht Hts. apply String.eqb_eq in Ht.
  cbv [execute_order execute_order_with bind call_get_last_timestamp log lift].
  now rewrite Ht, Hts.
Qed.

Lemma execute_order_no_quote self event w ts e :
  type event = "ORDER" ->
  get_last_timestamp (price_handler self) (ticker event) = Ok ts ->
  price_handler_type (price_handler self) = "TICK_HANDLER" ->
  get_best_bid_ask (price_handler self) (ticker event) = Raise e ->
  execute_order self event w =
    (Raise e, {| events_queue := events_queue w;
                 calls := calls w ++
                          [Call_get_last_timestamp (ticker event);
                           Call_get_best_bid_ask (ticker event)] |}).
Proof.
  intros Ht Hts Hk Hq. apply String.eqb_eq in Ht, Hk.
  cbv [execute_order execute_order_with bind call_get_last_timestamp call_get_best_bid_ask
       log lift].
  rewrite Ht, Hts, Hk, Hq. cbn [events_queue calls].
  now rewrite <- app_assoc.
Qed.

Lemma execute_order_no_close self event w ts e :
  type event = "ORDER" ->
  get_last_timestamp (price_handler self) (ticker event) = Ok ts ->
  price_handler_type (price_handler self) <> "TICK_HANDLER" ->
  get_last_close (price_handler self) (ticker event) = Raise e ->
  execute_order self event w =
    (Raise e, {| events_queue := events_queue w;
                 calls := calls w ++
                          [Call_get_last_timestamp (ticker event);
                           Call_get_last_close (ticker event)] |}).
Proof.
  intros Ht Hts Hk Hq. apply String.eqb_eq in Ht. apply String.eqb_neq in Hk.
  cbv [execute_order execute_order_with bind call_get_last_timestamp call_get_last_close
       log lift].
  rewrite Ht, Hts, Hk, Hq. cbn [events_queue calls].
  now rewrite <- app_assoc.
Qed.

(** Once the price is resolved the fill is published, whatever the recorder
    does afterwards. *)
Lemma execute_order_publishes self event w ts p :
  type event = "ORDER" ->
  get_last_timestamp (price_handler self) (ticker event) = Ok ts ->
  (if (price_handler_type (price_handler self) =? "TICK_HANDLER")%string
   then exists bid ask,
       get_best_bid_ask (price_handler self) (ticker event) = Ok (bid, ask)
       /\ Decimal (str (if (action event =? "BOT")%string
                        then ask else bid)) = Ok p
   else exists close_price,
       get_last_close (price_handler self) (ticker event) = Ok close_price
       /\ Decimal (str close_price) = Ok p) ->
  exists r w',
    execute_order self event w = (r, w') /\
    events_queue w' =
      events_queue w ++
      [QFill (FillEvent ts (ticker event) (action event) (quantity event)
                        "ARCA" p one_dollar)].
Proof.
  intros Ht Hts Hp. apply String.eqb_eq in Ht.
  destruct (execute_order self event w) as [r w'] eqn:E.
  exists r, w'. split; [reflexivity|].
  destruct (price_handler_type (price_handler self) =? "TICK_HANDLER")%string
    eqn:Hk.
  - destruct Hp as (bid & ask & Hq & Hd).
    destruct (action event =? "BOT")%string eqn:Ha.
    all: run_in E; try congruence.
    all: repeat match goal with
                | A : ?x = Ok _, B : ?x = Ok _ |- _ =>
                    rewrite A in B; inversion B; subst; clear B
                end; reflexivity.
  - destruct Hp as (c & Hq & Hd).
    run_in E; try congruence.
    all: repeat match goal with
                | A : ?x = Ok _, B : ?x = Ok _ |- _ =>
                    rewrite A in B; inversion B; subst; clear B
                end; reflexivity.
Qed.

(** *** The claims *)

(** C1.  With a tick-oriented price source, the fill published for an order
    whose action is "BOT" is priced at the ask that [get_best_bid_ask]
    returned for the order's ticker, and the fill published for an order
    whose action is "SLD" is priced at the returned bid.  The price is the
    quote as the handler converts it, [Decimal(str(quote))]. *)
Theorem tick_fill_price self event w r w' f bid ask :
  type event = "ORDER" ->
  price_handler_type (price_handler self) = "TICK_HANDLER" ->
  get_best_bid_ask (price_handler self) (ticker event) = Ok (bid, ask) ->
  execute_order self event w = (r, w') ->
  events_queue w' = events_queue w ++ [QFill f] ->
  (action event = "BOT" -> Decimal (str ask) = Ok (fill_price f)) /\
  (action event = "SLD" -> Decimal (str bid) = Ok (fill_price f)).
Proof.
  intros Ht Hk Hq E Q.
  destruct (execute_order_published _ _ _ _ _ _ Ht E Q)
    as (ts & p & pre & _ & Hp & -> & _).
  apply String.eqb_eq in Hk. rewrite Hk in Hp.
  destruct Hp as (bid' & ask' & Hq' & Hd).
  rewrite Hq in Hq'. inversion Hq'; subst bid' ask'. cbn [fill_price].
  split; intro Ha; rewrite Ha in Hd; exact Hd.
Qed.

(** C2.  With a bar-oriented price source (any [type] other than
    "TICK_HANDLER"), the published fill is priced at the value that
    [get_last_close] returned for the order's ticker, whatever the order's
    action. *)
Theorem bar_fill_price self event w r w' f close_price :
  type event = "ORDER" ->
  price_handler_type (price_handler self) <> "TICK_HANDLER" ->
  get_last_close (price_handler self) (ticker event) = Ok close_price ->
  execute_order self event w = (r, w') ->
  events_queue w' = events_queue w ++ [QFill f] ->
  Decimal (str close_price) = Ok (fill_price f).
Proof.
  intros Ht Hk Hq E Q.
  destruct (execute_order_published _ _ _ _ _ _ Ht E Q)
    as (ts & p & pre & _ & Hp & -> & _).
  apply String.eqb_neq in Hk. rewrite Hk in Hp.
  destruct Hp as (c & Hq' & Hd).
  rewrite Hq in Hq'. inversion Hq'; subst c. exact Hd.
Qed.

(** C3.  The published fill carries the order's ticker, action and quantity,
    and its timestamp is the one [get_last_timestamp] returned for that
    ticker during the call. *)
Theorem fill_copies_order self event w r w' f :
  type event = "ORDER" ->
  execute_order self event w = (r, w') ->
  events_queue w' = events_queue w ++ [QFill f] ->
  fill_ticker f = ticker event /\
  fill_action f = action event /\
  fill_quantity f = quantity event /\
  get_last_timestamp (price_handler self) (ticker event)
    = Ok (fill_timestamp f).
Proof.
  intros Ht E Q.
  destruct (execute_order_published _ _ _ _ _ _ Ht E Q)
    as (ts & p & pre & Hts & _ & -> & _).
  cbn. auto.
Qed.

(** C4.  On an event that is not an order, [execute_order] returns normally
    and leaves the world as it was: nothing is queued and no collaborator is
    called.  On an order event that it processes successfully, exactly one
    fill is appended to the queue. *)
Theorem execute_order_queue_effect self event w :
  (type event <> "ORDER" -> execute_order self event w = (Ok tt, w)) /\
  (type event = "ORDER" ->
   forall w', execute_order self event w = (Ok tt, w') ->
   exists f, events_queue w' = events_queue w ++ [QFill f]).
Proof.
  split.
  - apply execute_order_ignores.
  - intros Ht w' E.
    destruct (execute_order_outcome _ _ _ _ _ Ht E)
      as [(e & pre & Hr & _) | Hf]; [discriminate Hr | exact Hf].
Qed.

(** C5.  When the timestamp lookup or the price lookup raises for the
    order's ticker, [execute_order] raises that same exception; the queue is
    unchanged and the only calls made are lookups on the price handler, so
    no fill reaches the queue or the recorder. *)
Theorem lookup_failure_propagates self event w e :
  type event = "ORDER" ->
  (get_last_timestamp (price_handler self) (ticker event) = Raise e \/
   exists ts,
     get_last_timestamp (price_handler self) (ticker event) = Ok ts /\
     ((price_handler_type (price_handler self) = "TICK_HANDLER" /\
       get_best_bid_ask (price_handler self) (ticker event) = Raise e) \/
      (price_handler_type (price_handler self) <> "TICK_HANDLER" /\
       get_last_close (price_handler self) (ticker event) = Raise e))) ->
  exists w' pre,
    execute_order self event w = (Raise e, w') /\
    events_queue w' = events_queue w /\
    calls w' = calls w ++ pre /\
    forallb is_price_lookup pre = true.
Proof.
  intros Ht [Hts | (ts & Hts & [[Hk Hq] | [Hk Hq]])].
  - eexists _, _. split; [now apply execute_order_no_timestamp|].
    repeat split; reflexivity.
  - eexists _, _. split; [now apply (execute_order_no_quote _ _ _ ts)|].
    repeat split; reflexivity.
  - eexists _, _. split; [now apply (execute_order_no_close _ _ _ ts)|].
    repeat split; reflexivity.
Qed.

(** C6.  A successful run on an order publishes a fill.  With a recorder
    attached, the calls of the run are lookups, then the [put] of the fill,
    then one [record_trade] with that same fill; with no recorder, the calls
    end with the [put], no [record_trade] is made, and the run returns
    normally. *)
Theorem recorder_sees_published_fill self event w r w' :
  type event = "ORDER" ->
  execute_order self event w = (r, w') ->
  (r = Ok tt -> exists f, events_queue w' = events_queue w ++ [QFill f]) /\
  (forall f,
      events_queue w' = events_queue w ++ [QFill f] ->
      exists pre,
        forallb is_price_lookup pre = true /\
        match compliance self with
        | Some recorder =>
            calls w' =
              calls w ++ pre ++ [Call_put (QFill f); Call_record_trade f] /\
            r = record_trade recorder f
        | None =>
            calls w' = calls w ++ pre ++ [Call_put (QFill f)] /\ r = Ok tt
        end).
Proof.
  intros Ht E. split.
  - intros ->.
    destruct (execute_order_outcome _ _ _ _ _ Ht E)
      as [(e & pre & Hr & _) | Hf]; [discriminate Hr | exact Hf].
  - intros f Q.
    destruct (execute_order_published _ _ _ _ _ _ Ht E Q)
      as (ts & p & pre & _ & _ & _ & Hpre & Hc).
    exists pre. split; assumption.
Qed.

(** C7.  Whenever [record_trade] is called during a run, the [put] of the
    same fill comes right before it in the log, the fill is on the queue
    when the run ends, and the run's outcome is the outcome of
    [record_trade]: an exception raised by the recorder leaves the fill
    published. *)
Theorem put_precedes_record_trade self event w r w' new f :
  type event = "ORDER" ->
  execute_order self event w = (r, w') ->
  calls w' = calls w ++ new ->
  In (Call_record_trade f) new ->
  (exists pre recorder,
      new = pre ++ [Call_put (QFill f); Call_record_trade f] /\
      forallb is_price_lookup pre = true /\
      compliance self = Some recorder /\
      r = record_trade recorder f) /\
  events_queue w' = events_queue w ++ [QFill f].
Proof.
  intros Ht E Hn Hin.
  destruct (execute_order_outcome _ _ _ _ _ Ht E)
    as [(e & pre & _ & _ & Hc & Hpre) | (f' & Q)].
  - rewrite Hc in Hn. apply app_inv_head in Hn. subst new.
    rewrite forallb_forall in Hpre. apply Hpre in Hin. discriminate Hin.
  - destruct (execute_order_published _ _ _ _ _ _ Ht E Q)
      as (ts & p & pre & _ & _ & _ & Hpre & Hc).
    destruct (compliance self) as [recorder|]; destruct Hc as [Hc Hr];
      rewrite Hc in Hn; apply app_inv_head in Hn; subst new;
      apply in_app_or in Hin; destruct Hin as [Hin | Hin].
    + rewrite forallb_forall in Hpre. apply Hpre in Hin. discriminate Hin.
    + destruct Hin as [Hin | [Hin | []]]; [discriminate Hin|].
      inversion Hin; subst f'. split; [|exact Q].
      exists pre, recorder. repeat split; assumption.
    + rewrite forallb_forall in Hpre. apply Hpre in Hin. discriminate Hin.
    + destruct Hin as [Hin | []]. discriminate Hin.
Qed.

(** C8.  The price of a published fill is [Decimal] applied to the [str] of
    a number the price handler returned for the order's ticker (the bid or
    the ask of a tick source, the close of a bar source): the only path from
    the source's number to the price is its textual form.  That path is
    exact: [Decimal(str(d))] is [d] for every [Decimal] [d], and
    [Decimal(str(z))] is the integer [z] for every [int] [z]. *)
Theorem price_is_decimal_of_str self event w r w' f :
  type event = "ORDER" ->
  execute_order self event w = (r, w') ->
  events_queue w' = events_queue w ++ [QFill f] ->
  (exists x : Num,
      ((price_handler_type (price_handler self) = "TICK_HANDLER" /\
        exists bid ask,
          get_best_bid_ask (price_handler self) (ticker event)
            = Ok (bid, ask) /\ (x = ask \/ x = bid)) \/
       (price_handler_type (price_handler self) <> "TICK_HANDLER" /\
        get_last_close (price_handler self) (ticker event) = Ok x)) /\
      Decimal (str x) = Ok (fill_price f)) /\
  (forall d : decimal, Decimal (str d) = Ok d) /\
  (forall z : Z, Decimal (str z) = Ok (Finite (z <? 0) (Z.abs_N z) 0)).
Proof.
  intros Ht E Q.
  split; [|split; [exact Decimal_str_decimal | exact Decimal_str_int]].
  destruct (execute_order_published _ _ _ _ _ _ Ht E Q)
    as (ts & p & pre & _ & Hp & -> & _).
  cbn [fill_price].
  destruct (price_handler_type (price_handler self) =? "TICK_HANDLER")%string
    eqn:Hk.
  - apply String.eqb_eq in Hk. destruct Hp as (bid & ask & Hq & Hd).
    destruct (action event =? "BOT")%string.
    + exists ask. split; [left; eauto 6 | exact Hd].
    + exists bid. split; [left; eauto 6 | exact Hd].
  - apply String.eqb_neq in Hk. destruct Hp as (c & Hq & Hd).
    exists c. split; [right; auto | exact Hd].
Qed.

(** The body run with any commission method: what the method returns is
    what the published fill carries, and a method that returns lets the
    fill through as soon as the price is resolved. *)
Ltac run_with_in E :=
  cbv [execute_order_with bind call_get_last_timestamp call_get_best_bid_ask
       call_get_last_close call_record_trade log lift put ret] in E;
  repeat break_in E;
  inversion E; subst; clear E; cbn [events_queue calls] in *.

Lemma execute_order_with_commission
    (commission_method : IBSimulatedExecutionHandler -> result decimal)
    self event w r w' f :
  type event = "ORDER" ->
  execute_order_with commission_method self event w = (r, w') ->
  events_queue w' = events_queue w ++ [QFill f] ->
  commission_method self = Ok (fill_commission f).
Proof.
  intros Ht E Q. apply String.eqb_eq in Ht.
  run_with_in E; try stuck Q; try discriminate Ht; same_fill Q; reflexivity.
Qed.

Lemma execute_order_with_publishes
    (commission_method : IBSimulatedExecutionHandler -> result decimal)
    self event w ts p c :
  type event = "ORDER" ->
  get_last_timestamp (price_handler self) (ticker event) = Ok ts ->
  (if (price_handler_type (price_handler self) =? "TICK_HANDLER")%string
   then exists bid ask,
       get_best_bid_ask (price_handler self) (ticker event) = Ok (bid, ask)
       /\ Decimal (str (if (action event =? "BOT")%string
                        then ask else bid)) = Ok p
   else exists close_price,
       get_last_close (price_handler self) (ticker event) = Ok close_price
       /\ Decimal (str close_price) = Ok p) ->
  commission_method self = Ok c ->
  exists r w',
    execute_order_with commission_method self event w = (r, w') /\
    events_queue w' =
      events_queue w ++
      [QFill (FillEvent ts (ticker event) (action event) (quantity event)
                        "ARCA" p c)].
Proof.
  intros Ht Hts Hp Hm. apply String.eqb_eq in Ht.
  destruct (execute_order_with commission_method self event w)
    as [r w'] eqn:E.
  exists r, w'. split; [reflexivity|].
  destruct (price_handler_type (price_handler self) =? "TICK_HANDLER")%string
    eqn:Hk.
  - destruct Hp as (bid & ask & Hq & Hd).
    destruct (action event =? "BOT")%string eqn:Ha.
    all: run_with_in E; try congruence.
    all: repeat match goal with
                | A : ?x = Ok _, B : ?x = Ok _ |- _ =>
                    rewrite A in B; inversion B; subst; clear B
                end; reflexivity.
  - destruct Hp as (c0 & Hq & Hd).
    run_with_in E; try congruence.
    all: repeat match goal with
                | A : ?x = Ok _, B : ?x = Ok _ |- _ =>
                    rewrite A in B; inversion B; subst; clear B
                end; reflexivity.
Qed.

(** C9.  The commission on a published fill is [Decimal("1.00")], for every
    order, price and kind of price source, and it is the value that the
    method [calculate_ib_commission] returns.  The method is apart from the
    execution algorithm: [execute_order] is the body [execute_order_with]
    run with [calculate_ib_commission], and the same body run with any
    other commission method carries on the fill whatever that method
    returns; a method that returns [c] gives the same fill with [c] for
    commission and every other field unchanged. *)
Theorem commission_is_flat self event w r w' f :
  type event = "ORDER" ->
  execute_order self event w = (r, w') ->
  events_queue w' = events_queue w ++ [QFill f] ->
  fill_commission f = Finite false 100 (-2) /\
  calculate_ib_commission self = Ok (fill_commission f) /\
  execute_order self event w
  = execute_order_with calculate_ib_commission self event w /\
  (forall commission_method r2 w2 f2,
      execute_order_with commission_method self event w = (r2, w2) ->
      events_queue w2 = events_queue w ++ [QFill f2] ->
      commission_method self = Ok (fill_commission f2)) /\
  (forall commission_method c,
      commission_method self = Ok c ->
      exists r2 w2,
        execute_order_with commission_method self event w = (r2, w2) /\
        events_queue w2 =
          events_queue w ++
          [QFill (FillEvent (fill_timestamp f) (fill_ticker f)
                            (fill_action f) (fill_quantity f)
                            (fill_exchange f) (fill_price f) c)]).
Proof.
  intros Ht E Q.
  destruct (execute_order_published _ _ _ _ _ _ Ht E Q)
    as (ts & p & pre & Hts & Hp & -> & _).
  split; [reflexivity|]. split; [reflexivity|]. split; [reflexivity|]. split.
  - intros m r2 w2 f2 E2 Q2.
    exact (execute_order_with_commission m _ _ _ _ _ _ Ht E2 Q2).
  - intros m c Hm. cbn [fill_timestamp fill_ticker fill_action fill_quantity
                        fill_exchange fill_price].
    exact (execute_order_with_publishes m _ _ w ts p c Ht Hts Hp Hm).
Qed.

(** C10.  With a tick-oriented price source, an order whose action is
    anything but "BOT" is priced at the bid: the fill that gets published
    carries the converted bid, and nothing rejects the order on account of
    its action, so the fill is published as soon as the lookups and the
    conversion of the bid succeed. *)
Theorem not_bot_fills_at_bid self event w bid ask :
  type event = "ORDER" ->
  price_handler_type (price_handler self) = "TICK_HANDLER" ->
  action event <> "BOT" ->
  get_best_bid_ask (price_handler self) (ticker event) = Ok (bid, ask) ->
  (forall r w' f,
      execute_order self event w = (r, w') ->
      events_queue w' = events_queue w ++ [QFill f] ->
      Decimal (str bid) = Ok (fill_price f)) /\
  (forall ts p,
      get_last_timestamp (price_handler self) (ticker event) = Ok ts ->
      Decimal (str bid) = Ok p ->
      exists r w',
        execute_order self event w = (r, w') /\
        events_queue w' =
          events_queue w ++
          [QFill (FillEvent ts (ticker event) (action event)
                            (quantity event) "ARCA" p one_dollar)]).
Proof.
  intros Ht Hk Ha Hq.
  apply String.eqb_eq in Hk. apply String.eqb_neq in Ha. split.
  - intros r w' f E Q.
    destruct (execute_order_published _ _ _ _ _ _ Ht E Q)
      as (ts & p & pre & _ & Hp & -> & _).
    rewrite Hk, Ha in Hp. destruct Hp as (bid' & ask' & Hq' & Hd).
    rewrite Hq in Hq'. inversion Hq'; subst bid' ask'. exact Hd.
  - intros ts p Hts Hd.
    apply execute_order_publishes; [assumption..|].
    rewrite Hk, Ha. eauto.
Qed.

End Properties.

(** ** The handler on Decimal-valued price sources *)

(** X9.  When the price handler quotes in [Decimal], the price of the
    published fill is the quote itself: the ask for a "BOT" order and the
    bid for any other on a tick source, the close on any other source. *)
Lemma decimal_source_fill_price {Timestamp : Type}
    (self : @IBSimulatedExecutionHandler Timestamp decimal) (event : Event)
    (w w' : World) (r : result unit) (f : Fill) :
  type event = "ORDER" ->
  execute_order self event w = (r, w') ->
  events_queue w' = events_queue w ++ [QFill f] ->
  if (price_handler_type (price_handler self) =? "TICK_HANDLER")%string
  then exists bid ask,
      get_best_bid_ask (price_handler self) (ticker event) = Ok (bid, ask) /\
      fill_price f = if (action event =? "BOT")%string then ask else bid
  else get_last_close (price_handler self) (ticker event)
       = Ok (fill_price f).
Proof.
  intros Ht E Q.
  destruct (execute_order_published _ _ _ _ _ _ Ht E Q)
    as (ts & p & pre & _ & Hp & -> & _).
  cbn [fill_price].
  destruct (price_handler_type (price_handler self) =? "TICK_HANDLER")%string.
  - destruct Hp as (bid & ask & Hq & Hd). exists bid, ask.
    rewrite Decimal_str_decimal in Hd. inversion Hd. auto.
  - destruct Hp as (c & Hq & Hd).
    rewrite Decimal_str_decimal in Hd. inversion Hd. now subst.
Qed.

(** ** The scenarios, run *)

Example run_buy_msft :
  execute_order tick_handler buy_msft empty_world
  = (Ok tt, world_after (tick_lookups "MSFT")
                        (fill_of T0 buy_msft ask_msft) true).
Proof. reflexivity. Qed.

Example run_sell_msft :
  execute_order tick_handler sell_msft empty_world
  = (Ok tt, world_after (tick_lookups "MSFT")
                        (fill_of T0 sell_msft bid_msft) true).
Proof. reflexivity. Qed.

Example run_hold_msft :
  execute_order tick_handler_bare hold_msft empty_world
  = (Ok tt, world_after (tick_lookups "MSFT")
                        (fill_of T0 hold_msft bid_msft) false).
Proof. reflexivity. Qed.

Example run_sell_aapl :
  execute_order bar_handler sell_aapl empty_world
  = (Ok tt, world_after (bar_lookups "AAPL")
                        (fill_of T0 sell_aapl close_aapl) false).
Proof. reflexivity. Qed.

Example run_broken_recorder :
  execute_order tick_handler_broken buy_msft empty_world
  = (Raise (PyError "IOError" "disk full"),
     world_after (tick_lookups "MSFT") (fill_of T0 buy_msft ask_msft) true).
Proof. reflexivity. Qed.

Example run_unknown_ticker :
  execute_order tick_handler buy_goog empty_world
  = (Raise (KeyError "GOOG"),
     {| events_queue := []; calls := [Call_get_last_timestamp "GOOG"] |}).
Proof. reflexivity. Qed.

Example run_tick_event :
  execute_order tick_handler tick_msft empty_world = (Ok tt, empty_world).
Proof. reflexivity. Qed.

(** ** The claims at the scenarios *)

(** C1 on the MSFT tick source: the buy is filled at 50.25, the ask. *)
Lemma tick_fill_price_witness :
  execute_order tick_handler buy_msft empty_world
  = (Ok tt, world_after (tick_lookups "MSFT")
                        (fill_of T0 buy_msft ask_msft) true) /\
  ((action buy_msft = "BOT" ->
    Decimal (str ask_msft)
    = Ok (fill_price (fill_of T0 buy_msft ask_msft))) /\
   (action buy_msft = "SLD" ->
    Decimal (str bid_msft)
    = Ok (fill_price (fill_of T0 buy_msft ask_msft)))).
Proof.
  split; [reflexivity|].
  apply (tick_fill_price tick_handler buy_msft empty_world (Ok tt)
           (world_after (tick_lookups "MSFT")
                        (fill_of T0 buy_msft ask_msft) true));
    reflexivity.
Defined.

(** C2 on the AAPL bar source: the sale is filled at 101.37, the close. *)
Lemma bar_fill_price_witness :
  price_handler_type (price_handler bar_handler) <> "TICK_HANDLER" /\
  Decimal (str close_aapl)
  = Ok (fill_price (fill_of T0 sell_aapl close_aapl)).
Proof.
  assert (Hk : price_handler_type (price_handler bar_handler)
               <> "TICK_HANDLER") by discriminate.
  split; [exact Hk|].
  apply (bar_fill_price bar_handler sell_aapl empty_world (Ok tt)
           (world_after (bar_lookups "AAPL")
                        (fill_of T0 sell_aapl close_aapl) false));
    [reflexivity | exact Hk | reflexivity | reflexivity | reflexivity].
Defined.

(** C3 on the sale of AAPL. *)
Lemma fill_copies_order_witness :
  fill_ticker (fill_of T0 sell_aapl close_aapl) = "AAPL" /\
  fill_action (fill_of T0 sell_aapl close_aapl) = "SLD" /\
  fill_quantity (fill_of T0 sell_aapl close_aapl) = 50 /\
  get_last_timestamp bar_source "AAPL"
  = Ok (fill_timestamp (fill_of T0 sell_aapl close_aapl)).
Proof.
  apply (fill_copies_order bar_handler sell_aapl empty_world (Ok tt)
           (world_after (bar_lookups "AAPL")
                        (fill_of T0 sell_aapl close_aapl) false));
    reflexivity.
Defined.

(** C4 on a tick event, which is ignored, and on the buy of MSFT, which
    adds one fill. *)
Lemma execute_order_queue_effect_witness :
  execute_order tick_handler tick_msft empty_world = (Ok tt, empty_world) /\
  exists f,
    events_queue (world_after (tick_lookups "MSFT")
                              (fill_of T0 buy_msft ask_msft) true)
    = events_queue empty_world ++ [QFill f].
Proof.
  split.
  - apply (proj1 (execute_order_queue_effect tick_handler tick_msft
                    empty_world)).
    discriminate.
  - apply (proj2 (execute_order_queue_effect tick_handler buy_msft
                    empty_world)); reflexivity.
Defined.

(** C5 on a ticker the tick source has never seen. *)
Lemma lookup_failure_propagates_witness :
  get_last_timestamp tick_source "GOOG" = Raise (KeyError "GOOG") /\
  exists w' pre,
    execute_order tick_handler buy_goog empty_world
    = (Raise (KeyError "GOOG"), w') /\
    events_queue w' = events_queue empty_world /\
    calls w' = calls empty_world ++ pre /\
    forallb is_price_lookup pre = true.
Proof.
  split; [reflexivity|].
  apply (lookup_failure_propagates tick_handler buy_goog empty_world
           (KeyError "GOOG")); [reflexivity | left; reflexivity].
Defined.

(** C6 on the buy of MSFT with a recorder attached. *)
Lemma recorder_sees_published_fill_witness :
  exists pre,
    forallb is_price_lookup pre = true /\
    calls (world_after (tick_lookups "MSFT")
                       (fill_of T0 buy_msft ask_msft) true)
    = calls empty_world ++ pre ++
      [Call_put (QFill (fill_of T0 buy_msft ask_msft));
       Call_record_trade (fill_of T0 buy_msft ask_msft)] /\
    Ok tt = record_trade recorder_ok (fill_of T0 buy_msft ask_msft).
Proof.
  destruct (recorder_sees_published_fill tick_handler buy_msft empty_world
              (Ok tt)
              (world_after (tick_lookups "MSFT")
                           (fill_of T0 buy_msft ask_msft) true))
    as [_ Hrec]; [reflexivity | reflexivity |].
  apply Hrec. reflexivity.
Defined.

(** C7 on a recorder that fails: the run raises, and the fill is on the
    queue all the same. *)
Lemma put_precedes_record_trade_witness :
  execute_order tick_handler_broken buy_msft empty_world
  = (Raise (PyError "IOError" "disk full"),
     world_after (tick_lookups "MSFT") (fill_of T0 buy_msft ask_msft) true)
  /\
  (exists pre recorder,
      tick_lookups "MSFT" ++
      [Call_put (QFill (fill_of T0 buy_msft ask_msft));
       Call_record_trade (fill_of T0 buy_msft ask_msft)]
      = pre ++ [Call_put (QFill (fill_of T0 buy_msft ask_msft));
                Call_record_trade (fill_of T0 buy_msft ask_msft)] /\
      forallb is_price_lookup pre = true /\
      compliance tick_handler_broken = Some recorder /\
      Raise (PyError "IOError" "disk full")
      = record_trade recorder (fill_of T0 buy_msft ask_msft)) /\
  events_queue (world_after (tick_lookups "MSFT")
                            (fill_of T0 buy_msft ask_msft) true)
  = events_queue empty_world ++ [QFill (fill_of T0 buy_msft ask_msft)].
Proof.
  split; [reflexivity|].
  apply (put_precedes_record_trade tick_handler_broken buy_msft empty_world
           (Raise (PyError "IOError" "disk full"))
           (world_after (tick_lookups "MSFT")
                        (fill_of T0 buy_msft ask_msft) true));
    [reflexivity | reflexivity | reflexivity |].
  right. right. right. left. reflexivity.
Defined.

(** C8 on the sale of MSFT: the price is [Decimal("50.20")]. *)
Lemma price_is_decimal_of_str_witness :
  str bid_msft = "50.20"%string /\
  exists x : decimal,
    ((price_handler_type tick_source = "TICK_HANDLER" /\
      exists bid ask,
        get_best_bid_ask tick_source "MSFT" = Ok (bid, ask) /\
        (x = ask \/ x = bid)) \/
     (price_handler_type tick_source <> "TICK_HANDLER" /\
      get_last_close tick_source "MSFT" = Ok x)) /\
    Decimal (str x) = Ok (fill_price (fill_of T0 sell_msft bid_msft)).
Proof.
  split; [reflexivity|].
  destruct (price_is_decimal_of_str tick_handler sell_msft empty_world
              (Ok tt)
              (world_after (tick_lookups "MSFT")
                           (fill_of T0 sell_msft bid_msft) true)
              (fill_of T0 sell_msft bid_msft))
    as [Hprice _]; [reflexivity | reflexivity | reflexivity |].
  exact Hprice.
Defined.

(** C9 on the buy of 100 MSFT: one dollar from the handler's own method,
    and two dollars fifty on the same fill from a method that returns
    2.50. *)
Lemma commission_is_flat_witness :
  fill_commission (fill_of T0 buy_msft ask_msft) = Finite false 100 (-2) /\
  calculate_ib_commission tick_handler
  = Ok (fill_commission (fill_of T0 buy_msft ask_msft)) /\
  exists r2 w2,
    execute_order_with (fun _ => Ok (Finite false 250 (-2)))
                       tick_handler buy_msft empty_world = (r2, w2) /\
    events_queue w2 =
      events_queue empty_world ++
      [QFill (FillEvent T0 "MSFT" "BOT" 100 "ARCA" ask_msft
                        (Finite false 250 (-2)))].
Proof.
  destruct (commission_is_flat tick_handler buy_msft empty_world (Ok tt)
              (world_after (tick_lookups "MSFT")
                           (fill_of T0 buy_msft ask_msft) true)
              (fill_of T0 buy_msft ask_msft))
    as (Hone & Hmethod & _ & _ & Hany);
    [reflexivity | reflexivity | reflexivity |].
  split; [exact Hone|]. split; [exact Hmethod|].
  apply (Hany (fun _ => Ok (Finite false 250 (-2))) (Finite false 250 (-2))).
  reflexivity.
Defined.

(** C10 on an order whose action is "HOLD": filled at 50.20, the bid. *)
Lemma not_bot_fills_at_bid_witness :
  action hold_msft <> "BOT" /\
  exists r w',
    execute_order tick_handler_bare hold_msft empty_world = (r, w') /\
    events_queue w'
    = events_queue empty_world ++ [QFill (fill_of T0 hold_msft bid_msft)].
Proof.
  assert (Ha : action hold_msft <> "BOT") by discriminate.
  split; [exact Ha|].
  destruct (not_bot_fills_at_bid tick_handler_bare hold_msft empty_world
              bid_msft ask_msft)
    as [_ Hpub]; [reflexivity | reflexivity | exact Ha | reflexivity |].
  apply (Hpub T0 bid_msft); reflexivity.
Defined.

(** ** More about a run of [execute_order] *)

Section Runs.

Context {Timestamp Num : Type} `{PyStr Num}.

Implicit Types (self : @IBSimulatedExecutionHandler Timestamp Num).
Implicit Types (event : Event) (w : @World Timestamp) (f : @Fill Timestamp).

Ltac flatten :=
  cbn [events_queue calls]; rewrite <- ?app_assoc; cbn [app]; reflexivity.

(** A run on an order, as a decision tree: the timestamp lookup, the price
    lookup, the conversion, and then the [put] and the recorder. *)
Lemma execute_order_run self event w :
  type event = "ORDER" ->
  execute_order self event w =
  let ts_call := Call_get_last_timestamp (ticker event) in
  match get_last_timestamp (price_handler self) (ticker event) with
  | Raise e => (Raise e, logged w [ts_call])
  | Ok ts =>
      match quote self event with
      | Raise e => (Raise e, logged w [ts_call; price_lookup self event])
      | Ok x =>
          match Decimal (str x) with
          | Raise e => (Raise e, logged w [ts_call; price_lookup self event])
          | Ok p =>
              let f := fill_for event ts p in
              match compliance self with
              | Some recorder =>
                  (record_trade recorder f,
                   queued w f [ts_call; price_lookup self event;
                               Call_put (QFill f); Call_record_trade f])
              | None =>
                  (Ok tt,
                   queued w f [ts_call; price_lookup self event;
                               Call_put (QFill f)])
              end
          end
      end
  end.
Proof.
  intro Ht. apply String.eqb_eq in Ht.
  cbv [execute_order execute_order_with bind call_get_last_timestamp call_get_best_bid_ask
       call_get_last_close call_record_trade log lift put ret
       quote price_lookup logged queued fill_for].
  rewrite Ht. change (calculate_ib_commission self) with (Ok one_dollar).
  destruct (get_last_timestamp _ _) as [ts|e]; [|reflexivity].
  destruct (price_handler_type (price_handler self) =? "TICK_HANDLER")%string.
  - destruct (get_best_bid_ask _ _) as [[bid ask]|e]; [|flatten].
    destruct (action event =? "BOT")%string.
    + destruct (Decimal (str ask)) as [p|e]; [|flatten].
      destruct (compliance self) as [c|]; [|flatten].
      cbn [events_queue calls]. destruct (record_trade c _) as [[]|]; flatten.
    + destruct (Decimal (str bid)) as [p|e]; [|flatten].
      destruct (compliance self) as [c|]; [|flatten].
      cbn [events_queue calls]. destruct (record_trade c _) as [[]|]; flatten.
  - destruct (get_last_close _ _) as [c0|e]; [|flatten].
    destruct (Decimal (str c0)) as [p|e]; [|flatten].
    destruct (compliance self) as [c|]; [|flatten].
    cbn [events_queue calls]. destruct (record_trade c _) as [[]|]; flatten.
Qed.

Lemma Decimal_raises (v : string) (e : exn) :
  Decimal v = Raise e -> e = InvalidOperation v.
Proof.
  unfold Decimal. destruct (split_sign _) as [sign body].
  destruct (parse_number sign body); [discriminate|].
  destruct (parse_special sign body); [discriminate|].
  now intros [= <-].
Qed.

Lemma quote_same_source self self' event :
  price_handler self = price_handler self' ->
  quote self event = quote self' event /\
  price_lookup self event = price_lookup self' event.
Proof. unfold quote, price_lookup. now intros ->. Qed.

(** Case analysis on a run of the handler on an order. *)
Ltac split_run Ht E :=
  rewrite (execute_order_run _ _ _ Ht) in E; cbv zeta in E;
  repeat match type of E with
         | context [match ?x with _ => _ end] => destruct x eqn:?
         end;
  inversion E; subst; clear E;
  cbn [logged queued events_queue calls] in *.

(** X1.  Every fill the handler publishes is labelled with the exchange
    "ARCA". *)
Theorem fill_exchange_is_arca self event w r w' f :
  type event = "ORDER" ->
  execute_order self event w = (r, w') ->
  events_queue w' = events_queue w ++ [QFill f] ->
  fill_exchange f = "ARCA".
Proof.
  intros Ht E Q. split_run Ht E.
  all: try (symmetry in Q; now apply app_one_neq in Q).
  all: apply app_one_inj in Q; inversion Q; reflexivity.
Qed.

(** X2.  On an order, the first call of the run is the timestamp lookup for
    the order's ticker.  If it raises, nothing else is called; if it
    returns, exactly one price lookup follows, of the kind of the source and
    for the same ticker, and the price handler is not called again. *)
Theorem lookups_of_a_run self event w r w' :
  type event = "ORDER" ->
  execute_order self event w = (r, w') ->
  exists rest,
    calls w' = calls w ++ Call_get_last_timestamp (ticker event) :: rest /\
    match get_last_timestamp (price_handler self) (ticker event) with
    | Raise _ => rest = []
    | Ok _ =>
        exists tail,
          rest = price_lookup self event :: tail /\
          forall c, In c tail -> is_price_lookup c = false
    end.
Proof.
  intros Ht E. split_run Ht E.
  all: eexists; split; [reflexivity|]; try reflexivity.
  all: eexists; split; [reflexivity|].
  all: intros call Hc; cbn in Hc;
    repeat (destruct Hc as [<- | Hc]; [reflexivity|]); contradiction.
Qed.

(** X3.  Whatever the event and the outcome, a run only adds to the queue,
    and what it adds is nothing or one fill; what was queued before stays,
    in place.  The log of calls only grows as well. *)
Theorem queue_only_grows self event w r w' :
  execute_order self event w = (r, w') ->
  exists items new,
    events_queue w' = events_queue w ++ items /\
    calls w' = calls w ++ new /\
    (items = [] \/ exists f, items = [QFill f]).
Proof.
  intro E. destruct (String.eqb_spec (type event) "ORDER") as [Ht | Ht].
  - split_run Ht E.
    all: try (exists []; eexists;
              split; [symmetry; apply List.app_nil_r
                     | split; [reflexivity | now left]]).
    all: eexists; eexists;
      (split; [reflexivity | split; [reflexivity | right; eauto]]).
  - rewrite (execute_order_ignores _ _ _ Ht) in E. inversion E; subst.
    exists [], []. rewrite !List.app_nil_r. auto.
Qed.

(** X4.  When the lookups succeed but the text of the quote is not a
    numeric literal, the run raises [InvalidOperation] on that text, after
    the two lookups; the queue is unchanged and the recorder is not
    called. *)
Theorem bad_quote_raises self event w ts x e :
  type event = "ORDER" ->
  get_last_timestamp (price_handler self) (ticker event) = Ok ts ->
  quote self event = Ok x ->
  Decimal (str x) = Raise e ->
  e = InvalidOperation (str x) /\
  execute_order self event w =
    (Raise e,
     logged w [Call_get_last_timestamp (ticker event);
               price_lookup self event]).
Proof.
  intros Ht Hts Hq Hd. split; [now apply Decimal_raises|].
  rewrite (execute_order_run _ _ _ Ht). cbv zeta.
  now rewrite Hts, Hq, Hd.
Qed.

(** X5.  The handler never reads the queue or the log: a run returns the
    same outcome and adds the same items and the same calls from whatever
    world it starts. *)
Theorem run_ignores_the_world self event w r w' :
  execute_order self event w = (r, w') ->
  exists items new,
    w' = {| events_queue := events_queue w ++ items;
            calls := calls w ++ new |} /\
    forall w2,
      execute_order self event w2 =
        (r, {| events_queue := events_queue w2 ++ items;
               calls := calls w2 ++ new |}).
Proof.
  intro E. destruct (String.eqb_spec (type event) "ORDER") as [Ht | Ht].
  - rewrite (execute_order_run _ _ _ Ht) in E. cbv zeta in E.
    repeat match type of E with
           | context [match ?x with _ => _ end] => destruct x eqn:?
           end.
    all: inversion E; subst; clear E.
    all: try (exists []; eexists; split;
              [unfold logged; now rewrite List.app_nil_r|];
              intro w2; rewrite (execute_order_run _ _ _ Ht); cbv zeta;
              repeat match goal with
                     | Hx : ?x = _ |- context [match ?x with _ => _ end] =>
                         rewrite Hx
                     end;
              unfold logged; now rewrite List.app_nil_r).
    all: eexists; eexists; split; [reflexivity|];
      intro w2; rewrite (execute_order_run _ _ _ Ht); cbv zeta;
      repeat match goal with
             | Hx : ?x = _ |- context [match ?x with _ => _ end] =>
                 rewrite Hx
             end; reflexivity.
  - rewrite (execute_order_ignores _ _ _ Ht) in E. inversion E; subst.
    exists [], []. split.
    + destruct w'. cbn. now rewrite !List.app_nil_r.
    + intro w2. rewrite (execute_order_ignores _ _ _ Ht).
      destruct w2. cbn. now rewrite !List.app_nil_r.
Qed.

(** X7.  On an order, a fill is published exactly when the timestamp
    lookup, the price lookup and the conversion of the quote all succeed,
    and it is then the fill built from that timestamp and that price: no
    order is turned down for its action or its quantity. *)
Theorem publishes_iff self event w f :
  type event = "ORDER" ->
  (exists r w',
      execute_order self event w = (r, w') /\
      events_queue w' = events_queue w ++ [QFill f])
  <->
  (exists ts x p,
      get_last_timestamp (price_handler self) (ticker event) = Ok ts /\
      quote self event = Ok x /\
      Decimal (str x) = Ok p /\
      f = fill_for event ts p).
Proof.
  intro Ht. split.
  - intros (r & w' & E & Q). split_run Ht E.
    all: try (symmetry in Q; now apply app_one_neq in Q).
    all: apply app_one_inj in Q; inversion Q; eauto 8.
  - intros (ts & x & p & Hts & Hq & Hd & ->).
    rewrite (execute_order_run _ _ _ Ht). cbv zeta.
    rewrite Hts, Hq, Hd.
    destruct (compliance self); eexists _, _; split; reflexivity.
Qed.

(** X8.  On an order, the run returns normally exactly when the two
    lookups and the conversion succeed and the recorder, if there is one,
    returns normally on the fill. *)
Theorem returns_normally_iff self event w :
  type event = "ORDER" ->
  (exists w', execute_order self event w = (Ok tt, w'))
  <->
  (exists ts x p,
      get_last_timestamp (price_handler self) (ticker event) = Ok ts /\
      quote self event = Ok x /\
      Decimal (str x) = Ok p /\
      forall recorder,
        compliance self = Some recorder ->
        record_trade recorder (fill_for event ts p) = Ok tt).
Proof.
  intro Ht. split.
  - intros (w' & E). split_run Ht E.
    + eexists _, _, _. repeat split; eauto.
      intros recorder [= <-]. congruence.
    + eexists _, _, _. repeat split; eauto. discriminate.
  - intros (ts & x & p & Hts & Hq & Hd & Hrec).
    rewrite (execute_order_run _ _ _ Ht). cbv zeta.
    rewrite Hts, Hq, Hd.
    destruct (compliance self) as [c|]; [rewrite (Hrec c eq_refl)|];
      eexists; reflexivity.
Qed.

(** X11.  The recorder has no say in what is published or looked up: two
    handlers on the same price handler, with whatever recorders, leave the
    same queue and make the same price-handler calls. *)
Theorem queue_ignores_recorder self self2 event w r w' r2 w2 :
  price_handler self = price_handler self2 ->
  execute_order self event w = (r, w') ->
  execute_order self2 event w = (r2, w2) ->
  events_queue w' = events_queue w2 /\
  filter is_price_lookup (calls w') = filter is_price_lookup (calls w2).
Proof.
  intros Hph E E2.
  destruct (String.eqb_spec (type event) "ORDER") as [Ht | Ht].
  - destruct (quote_same_source self self2 event Hph) as [Hq Hl].
    rewrite (execute_order_run _ _ _ Ht) in E.
    rewrite (execute_order_run _ _ _ Ht) in E2. cbv zeta in E, E2.
    rewrite <- Hph, <- Hq, <- Hl in E2.
    destruct (get_last_timestamp _ _) as [ts|e0];
      [|now inversion E; inversion E2; subst].
    destruct (quote self event) as [x|e0];
      [|now inversion E; inversion E2; subst].
    destruct (Decimal (str x)) as [p|e0];
      [|now inversion E; inversion E2; subst].
    destruct (compliance self), (compliance self2);
      inversion E; inversion E2; subst;
      cbn [queued events_queue calls];
      (split; [reflexivity|]);
      rewrite !filter_app; f_equal; cbn [filter is_price_lookup];
      now destruct (is_price_lookup (price_lookup self event)).
  - rewrite (execute_order_ignores _ _ _ Ht) in E.
    rewrite (execute_order_ignores _ _ _ Ht) in E2.
    inversion E; inversion E2; subst. auto.
Qed.

(** X12.  Fills come out in the order the orders went in: two orders
    processed one after the other, by handlers sharing the queue, leave
    their two fills at the back of the queue, the first order's first. *)
Theorem fills_keep_order self self2 e1 e2 w w1 w2 :
  type e1 = "ORDER" -> type e2 = "ORDER" ->
  execute_order self e1 w = (Ok tt, w1) ->
  execute_order self2 e2 w1 = (Ok tt, w2) ->
  exists ts1 p1 ts2 p2,
    events_queue w2 =
      events_queue w ++
      [QFill (fill_for e1 ts1 p1); QFill (fill_for e2 ts2 p2)].
Proof.
  intros Ht1 Ht2 E1 E2.
  split_run Ht1 E1; split_run Ht2 E2; rewrite <- app_assoc; cbn [app];
    eexists _, _, _, _; reflexivity.
Qed.

(** X13.  The handler keeps no memory of the orders it has seen: the same
    order processed twice, with the price handler unchanged in between, is
    filled twice, with two equal fills. *)
Theorem same_order_twice self event w w1 w2 :
  type event = "ORDER" ->
  execute_order self event w = (Ok tt, w1) ->
  execute_order self event w1 = (Ok tt, w2) ->
  exists f, events_queue w2 = events_queue w ++ [QFill f; QFill f].
Proof.
  intros Ht E1 E2.
  rewrite (execute_order_run _ _ _ Ht) in E1.
  rewrite (execute_order_run _ _ _ Ht) in E2. cbv zeta in E1, E2.
  destruct (get_last_timestamp _ _) as [ts|e0]; [|discriminate E1].
  destruct (quote self event) as [x|e0]; [|discriminate E1].
  destruct (Decimal (str x)) as [p|e0]; [|discriminate E1].
  exists (fill_for event ts p).
  destruct (compliance self); inversion E1; inversion E2; subst;
    cbn [queued events_queue]; now rewrite <- app_assoc.
Qed.

(** X14.  The quantity of an order is copied onto the fill and has no other
    effect: an order that differs from a filled one in its quantity alone is
    filled too, at the same timestamp and the same price. *)
Theorem quantity_is_only_copied self e e' w r w' f :
  type e = "ORDER" ->
  type e' = type e -> ticker e' = ticker e -> action e' = action e ->
  execute_order self e w = (r, w') ->
  events_queue w' = events_queue w ++ [QFill f] ->
  exists ts p r2 w2,
    f = fill_for e ts p /\
    execute_order self e' w = (r2, w2) /\
    events_queue w2 = events_queue w ++ [QFill (fill_for e' ts p)].
Proof.
  intros Ht Ht' Hk Ha E Q.
  assert (Ht2 : type e' = "ORDER") by congruence.
  assert (Hq : quote self e' = quote self e).
  { unfold quote. now rewrite Hk, Ha. }
  rewrite (execute_order_run _ _ _ Ht) in E.
  rewrite (execute_order_run _ _ _ Ht2). cbv zeta in *.
  rewrite Hq, Hk.
  destruct (get_last_timestamp _ _) as [ts|e0];
    [|inversion E; subst; symmetry in Q; now apply app_one_neq in Q].
  destruct (quote self e) as [x|e0];
    [|inversion E; subst; symmetry in Q; now apply app_one_neq in Q].
  destruct (Decimal (str x)) as [p|e0];
    [|inversion E; subst; symmetry in Q; now apply app_one_neq in Q].
  exists ts, p.
  destruct (compliance self); inversion E; subst;
    cbn [queued events_queue] in Q; apply app_one_inj in Q;
    inversion Q; eexists _, _; repeat split; reflexivity.
Qed.

End Runs.

(** X10.  When the price handler quotes in [int], the price of the
    published fill is that integer, with exponent 0. *)
Theorem int_source_fill_price {Timestamp : Type}
    (self : @IBSimulatedExecutionHandler Timestamp Z) (event : Event)
    (w w' : World) (r : result unit) (f : Fill) :
  type event = "ORDER" ->
  execute_order self event w = (r, w') ->
  events_queue w' = events_queue w ++ [QFill f] ->
  exists z,
    quote self event = Ok z /\
    fill_price f = Finite (z <? 0)%Z (Z.abs_N z) 0.
Proof.
  intros Ht E Q.
  rewrite (execute_order_run _ _ _ Ht) in E. cbv zeta in E.
  repeat match type of E with
         | context [match ?x with _ => _ end] => destruct x eqn:?
         end;
    inversion E; subst; clear E;
    cbn [logged queued events_queue calls] in *.
  all: try (symmetry in Q; now apply app_one_neq in Q).
  all: apply app_one_inj in Q; inversion Q; subst; clear Q.
  all: eexists; split; [reflexivity|]; cbn [fill_for fill_price].
  all: match goal with
       | Hd : Decimal (str ?z) = Ok _ |- _ =>
           rewrite Decimal_str_int in Hd; now inversion Hd
       end.
Qed.


(** ** The further properties at the scenarios *)

Lemma fill_exchange_is_arca_witness :
  fill_exchange (fill_of T0 buy_msft ask_msft) = "ARCA"%string.
Proof.
  apply (fill_exchange_is_arca tick_handler buy_msft empty_world (Ok tt)
           (world_after (tick_lookups "MSFT")
                        (fill_of T0 buy_msft ask_msft) true));
    reflexivity.
Defined.

Lemma lookups_of_a_run_witness :
  exists rest,
    calls (world_after (tick_lookups "MSFT")
                       (fill_of T0 buy_msft ask_msft) true)
    = calls empty_world ++ Call_get_last_timestamp "MSFT" :: rest /\
    exists tail,
      rest = Call_get_best_bid_ask "MSFT" :: tail /\
      forall c, In c tail -> is_price_lookup c = false.
Proof.
  pose proof (lookups_of_a_run tick_handler buy_msft empty_world (Ok tt)
                (world_after (tick_lookups "MSFT")
                             (fill_of T0 buy_msft ask_msft) true)
                eq_refl) as W.
  apply W. reflexivity.
Defined.

Lemma queue_only_grows_witness :
  exists items new,
    events_queue (world_after (tick_lookups "MSFT")
                              (fill_of T0 buy_msft ask_msft) true)
    = events_queue empty_world ++ items /\
    calls (world_after (tick_lookups "MSFT")
                       (fill_of T0 buy_msft ask_msft) true)
    = calls empty_world ++ new /\
    (items = [] \/ exists f, items = [QFill f]).
Proof.
  apply (queue_only_grows tick_handler buy_msft empty_world (Ok tt)).
  reflexivity.
Defined.

Lemma bad_quote_raises_witness :
  Decimal (str "n/a"%string) = Raise (InvalidOperation "n/a") /\
  InvalidOperation "n/a" = InvalidOperation (str "n/a"%string) /\
  execute_order text_handler sell_aapl empty_world =
    (Raise (InvalidOperation "n/a"),
     logged empty_world [Call_get_last_timestamp "AAPL";
                         Call_get_last_close "AAPL"]).
Proof.
  split; [reflexivity|].
  apply (bad_quote_raises text_handler sell_aapl empty_world T0 "n/a"%string);
    reflexivity.
Defined.

Lemma run_ignores_the_world_witness :
  exists items new,
    world_after (tick_lookups "MSFT") (fill_of T0 buy_msft ask_msft) true
    = {| events_queue := events_queue empty_world ++ items;
         calls := calls empty_world ++ new |} /\
    forall w2,
      execute_order tick_handler buy_msft w2 =
        (Ok tt, {| events_queue := events_queue w2 ++ items;
                   calls := calls w2 ++ new |}).
Proof.
  apply (run_ignores_the_world tick_handler buy_msft empty_world).
  reflexivity.
Defined.

(** An order for no shares at all is filled like any other. *)
Lemma publishes_iff_witness :
  exists r w',
    execute_order tick_handler sell_zero_msft empty_world = (r, w') /\
    events_queue w'
    = events_queue empty_world ++
      [QFill (fill_for sell_zero_msft T0 bid_msft)].
Proof.
  destruct (publishes_iff tick_handler sell_zero_msft empty_world
              (fill_for sell_zero_msft T0 bid_msft)) as [_ Hpub];
    [reflexivity|].
  apply Hpub. exists T0, bid_msft, bid_msft.
  repeat split; reflexivity.
Defined.

Lemma returns_normally_iff_witness :
  exists w', execute_order tick_handler buy_msft empty_world = (Ok tt, w').
Proof.
  destruct (returns_normally_iff tick_handler buy_msft empty_world)
    as [_ Hret]; [reflexivity|].
  apply Hret. exists T0, ask_msft, ask_msft.
  repeat split; try reflexivity.
  intros recorder [= <-]. reflexivity.
Defined.

Lemma decimal_source_fill_price_witness :
  exists bid ask,
    get_best_bid_ask tick_source "MSFT" = Ok (bid, ask) /\
    fill_price (fill_of T0 buy_msft ask_msft) = ask.
Proof.
  pose proof (decimal_source_fill_price tick_handler buy_msft empty_world
                (world_after (tick_lookups "MSFT")
                             (fill_of T0 buy_msft ask_msft) true)
                (Ok tt) (fill_of T0 buy_msft ask_msft)
                eq_refl) as W.
  apply W; reflexivity.
Defined.

Lemma int_source_fill_price_witness :
  exists z,
    quote cents_handler buy_msft = Ok z /\
    fill_price (fill_for buy_msft T0 (Finite false 5025 0))
    = Finite (z <? 0)%Z (Z.abs_N z) 0.
Proof.
  apply (int_source_fill_price cents_handler buy_msft empty_world
           (queued empty_world (fill_for buy_msft T0 (Finite false 5025 0))
                   [Call_get_last_timestamp "MSFT";
                    Call_get_best_bid_ask "MSFT";
                    Call_put (QFill (fill_for buy_msft T0
                                              (Finite false 5025 0)))])
           (Ok tt));
    reflexivity.
Defined.

Lemma queue_ignores_recorder_witness :
  events_queue (snd (execute_order tick_handler buy_msft empty_world))
  = events_queue
      (snd (execute_order tick_handler_broken buy_msft empty_world)) /\
  filter is_price_lookup
         (calls (snd (execute_order tick_handler buy_msft empty_world)))
  = filter is_price_lookup
           (calls (snd (execute_order tick_handler_broken buy_msft
                                      empty_world))).
Proof.
  apply (queue_ignores_recorder tick_handler tick_handler_broken buy_msft
           empty_world (Ok tt) _ (Raise (PyError "IOError" "disk full")));
    reflexivity.
Defined.

Lemma fills_keep_order_witness :
  exists ts1 p1 ts2 p2,
    events_queue
      (snd (execute_order tick_handler sell_msft
              (snd (execute_order tick_handler buy_msft empty_world))))
    = events_queue empty_world ++
      [QFill (fill_for buy_msft ts1 p1); QFill (fill_for sell_msft ts2 p2)].
Proof.
  apply (fills_keep_order tick_handler tick_handler buy_msft sell_msft
           empty_world
           (snd (execute_order tick_handler buy_msft empty_world)));
    reflexivity.
Defined.

Lemma same_order_twice_witness :
  exists f,
    events_queue
      (snd (execute_order tick_handler buy_msft
              (snd (execute_order tick_handler buy_msft empty_world))))
    = events_queue empty_world ++ [QFill f; QFill f].
Proof.
  apply (same_order_twice tick_handler buy_msft empty_world
           (snd (execute_order tick_handler buy_msft empty_world)));
    reflexivity.
Defined.

Lemma quantity_is_only_copied_witness :
  exists ts p r2 w2,
    fill_of T0 buy_msft ask_msft = fill_for buy_msft ts p /\
    execute_order tick_handler
      {| type := "ORDER"; ticker := "MSFT"; action := "BOT";
         quantity := -7 |} empty_world = (r2, w2) /\
    events_queue w2
    = events_queue empty_world ++
      [QFill (fill_for {| type := "ORDER"; ticker := "MSFT";
                          action := "BOT"; quantity := -7 |} ts p)].
Proof.
  apply (quantity_is_only_copied tick_handler buy_msft
           {| type := "ORDER"; ticker := "MSFT"; action := "BOT";
              quantity := -7 |}
           empty_world (Ok tt)
           (world_after (tick_lookups "MSFT")
                        (fill_of T0 buy_msft ask_msft) true));
    reflexivity.
Defined.
